(** * Calorie tracker: nutrition search, serving computation and storage

  A shallow embedding of the client hook [useNutritionApi], the
  [TrackFoodForm] component logic, the Express route handlers and the
  [DatabaseStorage] class, with the properties the specification states
  about them.

  Conventions.
  - A JavaScript [number] is a rational ([Q]); numeric results are compared
    with [==], and only equalities and signs that the double-precision
    operations of the code give as well are stated.  A number that the
    browser rounds for display is kept as its operands.  Integer keys (row
    ids, user ids, nutrient ids) are [Z].
  - A JavaScript string is a [string] whose characters are its code units,
    all below 256; [toLowerCase] and [trim] act on these code units as
    JavaScript does.
  - The rows of a table are listed in the order in which the engine scans
    them; the code asks for an order only where it says [orderBy].
  - A field that may be [undefined] or [null] is an [option].
  - A promise that has settled is a [promise]: resolved with a value or
    rejected with an error. *)

From Stdlib Require Import ZArith QArith String Ascii List Bool Lia.
From Stdlib Require Import DecimalString Permutation Sorted.
Import ListNotations.

Local Open Scope string_scope.
Local Open Scope list_scope.

(** ** JavaScript values *)

Module Js.

(** [x > 0] on numbers. *)
Definition gt0 (x : Q) : bool := negb (Qle_bool x 0).

(** Truthiness of a number: every number but zero. *)
Definition truthy_num (x : Q) : bool := negb (Qeq_bool x 0).

(** [a || d] where [a] is a possibly missing number. *)
Definition or_num (a : option Q) (d : Q) : Q :=
  match a with
  | Some x => if truthy_num x then x else d
  | None => d
  end.

(** Truthiness of a string: every string but the empty one. *)
Definition truthy_str (s : string) : bool :=
  match s with
  | EmptyString => false
  | String _ _ => true
  end.

(** [a || d] where [a] is a possibly missing string. *)
Definition or_str (a : option string) (d : string) : string :=
  match a with
  | Some s => if truthy_str s then s else d
  | None => d
  end.

(** The decimal rendering of an integer inside a template literal. *)
Definition show (n : Z) : string := NilZero.string_of_int (Z.to_int n).

(** [String.prototype.toLowerCase] on a code unit below 256: the letters
    A to Z, and the letters from 192 to 222 but the sign at 215, are moved
    up by 32. *)
Definition lower_unit (c : ascii) : ascii :=
  let n := nat_of_ascii c in
  if ((65 <=? n)%nat && (n <=? 90)%nat) ||
     ((192 <=? n)%nat && (n <=? 222)%nat && negb (n =? 215)%nat)
  then ascii_of_nat (n + 32) else c.

Fixpoint toLowerCase (s : string) : string :=
  match s with
  | EmptyString => EmptyString
  | String c s' => String (lower_unit c) (toLowerCase s')
  end.

(** [s.includes(sub)]. *)
Fixpoint includes (s sub : string) : bool :=
  String.prefix sub s ||
  match s with
  | EmptyString => false
  | String _ s' => includes s' sub
  end.

(** White space and line terminators removed by [trim], among the code
    units below 256: the blank, the controls 9 to 13 and the no-break space
    160. *)
Definition is_space (c : ascii) : bool :=
  let n := nat_of_ascii c in
  (n =? 32)%nat || ((9 <=? n)%nat && (n <=? 13)%nat) || (n =? 160)%nat.

Fixpoint trimStart (s : string) : string :=
  match s with
  | EmptyString => EmptyString
  | String c s' => if is_space c then trimStart s' else s
  end.

Fixpoint trimEnd (s : string) : string :=
  match s with
  | EmptyString => EmptyString
  | String c s' =>
      match trimEnd s' with
      | EmptyString => if is_space c then EmptyString else String c EmptyString
      | t => String c t
      end
  end.

Definition trim (s : string) : string := trimEnd (trimStart s).

(** An [Error] object, by its message. *)
Record Error := mkError { message : string }.

(** What a [throw] or a rejection carries: an [Error] or any other value. *)
Inductive thrown : Type :=
| ThrownError (e : Error)
| ThrownOther.

(** [err instanceof Error ? err : new Error(msg)]. *)
Definition asError (t : thrown) (msg : string) : Error :=
  match t with
  | ThrownError e => e
  | ThrownOther => mkError msg
  end.

(** A settled promise. *)
Inductive promise (A : Type) : Type :=
| Resolved (a : A)
| Rejected (e : thrown).
Arguments Resolved {A} a.
Arguments Rejected {A} e.

Definition bind {A B} (p : promise A) (k : A -> promise B) : promise B :=
  match p with
  | Resolved a => k a
  | Rejected e => Rejected e
  end.

(** [p.catch(h)]. *)
Definition catch {A} (p : promise A) (h : thrown -> A) : promise A :=
  match p with
  | Resolved a => Resolved a
  | Rejected e => Resolved (h e)
  end.

(** [Promise.all([p, q])]: rejected as soon as one of the two is. *)
Definition all2 {A B} (p : promise A) (q : promise B) : promise (A * B) :=
  bind p (fun a => bind q (fun b => Resolved (a, b))).

End Js.

Notation "x <- p ;; k" := (Js.bind p (fun x => k))
(at level 61, p at next level, right associativity).

(** ** Client: source adapters, search, serving computation *)

Module Client.
Import Js.

(** One entry of a result's nutrient list. *)
Record Nutrient := mkNutrient {
  nutrientId : Z;
  nutrientName : string;
  nutrientNumber : string;
  unitName : string;
  value : Q
}.

(** The canonical search result, [FoodSearchResult]. *)
Record FoodSearchResult := mkResult {
  fdcId : string;
  description : string;
  nutrients : list Nutrient;
  dataType : option string;
  foodCode : option string;
  brandName : option string;
  foodGroup : option string;
  isIndianFood : bool;
  isCustomFood : bool
}.

(** A row of the curated table as the client receives it; the adapter
    guards every field it reads. *)
Record IndianFood := mkIndianFood {
  if_id : Z;
  if_foodName : option string;
  if_calories : option Q;
  if_protein : option Q;
  if_carbs : option Q;
  if_fat : option Q;
  if_fiber : option Q;
  if_calcium : option Q;
  if_iron : option Q;
  if_foodGroup : option string;
  if_foodCode : option string
}.

(** A custom food as the client receives it. *)
Record CustomFood := mkCustomFood {
  cf_id : Z;
  cf_userId : Z;
  cf_foodName : string;
  cf_calories : Q;
  cf_protein : Q;
  cf_carbs : Q;
  cf_fat : Q;
  cf_foodGroup : option string
}.

(** The canonical nutrient ids. *)
Definition CALORIES_ID : Z := 1008.
Definition PROTEIN_ID : Z := 1003.
Definition CARBS_ID : Z := 1005.
Definition FAT_ID : Z := 1004.
Definition FIBER_ID : Z := 1079.
Definition CALCIUM_ID : Z := 1087.
Definition IRON_ID : Z := 1089.

Definition canonical_ids : list Z :=
  [CALORIES_ID; PROTEIN_ID; CARBS_ID; FAT_ID; FIBER_ID; CALCIUM_ID; IRON_ID].

(** [convertIndianFoodToSearchResult]; [None] is a [null] or [undefined]
    record. *)
Definition convertIndianFoodToSearchResult (food : option IndianFood)
  : FoodSearchResult :=
  match food with
  | None =>
      {| fdcId := "invalid-food";
         description := "Invalid food data";
         nutrients := [];
         dataType := None; foodCode := None; brandName := None;
         foodGroup := None;
         isIndianFood := true; isCustomFood := false |}
  | Some food =>
      {| fdcId := "indian-" ++ show (if_id food);
         description := or_str (if_foodName food) "Unknown Indian Food";
         nutrients :=
           [ mkNutrient 1008 "Energy" "208" "kcal" (or_num (if_calories food) 0);
             mkNutrient 1003 "Protein" "203" "g" (or_num (if_protein food) 0);
             mkNutrient 1005 "Carbohydrates" "205" "g" (or_num (if_carbs food) 0);
             mkNutrient 1004 "Total lipid (fat)" "204" "g" (or_num (if_fat food) 0);
             mkNutrient 1079 "Fiber" "291" "g" (or_num (if_fiber food) 0);
             mkNutrient 1087 "Calcium" "301" "mg" (or_num (if_calcium food) 0);
             mkNutrient 1089 "Iron" "303" "mg" (or_num (if_iron food) 0) ];
         dataType := None;
         foodCode := if_foodCode food;
         brandName := None;
         foodGroup := Some (or_str (if_foodGroup food) "Indian Foods");
         isIndianFood := true; isCustomFood := false |}
  end.

(** [convertCustomFoodToSearchResult]; its parameter is a [CustomFood]
    and it reads the fields without a guard. *)
Definition convertCustomFoodToSearchResult (food : CustomFood)
  : FoodSearchResult :=
  {| fdcId := "custom-" ++ show (cf_id food);
     description := cf_foodName food;
     nutrients :=
       [ mkNutrient 1008 "Energy" "208" "kcal" (cf_calories food);
         mkNutrient 1003 "Protein" "203" "g" (cf_protein food);
         mkNutrient 1005 "Carbohydrates" "205" "g" (cf_carbs food);
         mkNutrient 1004 "Total lipid (fat)" "204" "g" (cf_fat food) ];
     dataType := None; foodCode := None; brandName := None;
     foodGroup := Some (or_str (cf_foodGroup food) "Custom Foods");
     isIndianFood := false; isCustomFood := true |}.

(** Modelled from the spec: the USDA adapter lives in [lib/api], which is
    not part of the sources at hand.  The specification says that USDA
    ids are used as they are; the native id of the USDA database is a
    non-negative integer, rendered in decimal. *)
Definition usdaFdcId (native : N) : string := show (Z.of_N native).

(** [getNutrientValue]; [None] is a nutrient list that is missing or not
    an array. *)
Definition getNutrientValue (nutrients : option (list Nutrient)) (id : Z) : Q :=
  match nutrients with
  | None => 0
  | Some l =>
      match find (fun n => Z.eqb (nutrientId n) id) l with
      | Some n => value n
      | None => 0
      end
  end.

Record Nutrition := mkNutrition {
  calories : Q;
  protein : Q;
  carbs : Q;
  fat : Q
}.

(** [calculateNutrition]. *)
Definition calculateNutrition (food : FoodSearchResult) (multiplier : Q)
  : Nutrition :=
  let calories := (getNutrientValue (Some (nutrients food)) CALORIES_ID * multiplier)%Q in
  let protein := (getNutrientValue (Some (nutrients food)) PROTEIN_ID * multiplier)%Q in
  let carbs := (getNutrientValue (Some (nutrients food)) CARBS_ID * multiplier)%Q in
  let fat := (getNutrientValue (Some (nutrients food)) FAT_ID * multiplier)%Q in
  {| calories := calories; protein := protein; carbs := carbs; fat := fat |}.

(** The body of [POST /api/food-items] built by [handleAddFood]. *)
Record FoodItem := mkFoodItem {
  fi_userId : Z;
  fi_foodName : string;
  fi_quantity : Q;
  fi_unit : string;
  fi_calories : Q;
  fi_protein : Q;
  fi_carbs : Q;
  fi_fat : Q;
  fi_mealType : string;
  fi_date : string;
  fi_fdcId : string
}.

(** [handleAddFood]: [None] when no food is selected (a toast is shown and
    nothing is submitted), otherwise the item handed to the mutation. *)
Definition handleAddFood (userId : Z) (date : string)
    (selectedFood : option FoodSearchResult)
    (quantity : Q) (unit mealType : string) : option FoodItem :=
  match selectedFood with
  | None => None
  | Some selectedFood =>
      let multiplier := (quantity / 100)%Q in
      let n := calculateNutrition selectedFood multiplier in
      Some {| fi_userId := userId;
              fi_foodName := description selectedFood;
              fi_quantity := quantity;
              fi_unit := unit;
              fi_calories := calories n;
              fi_protein := protein n;
              fi_carbs := carbs n;
              fi_fat := fat n;
              fi_mealType := mealType;
              fi_date := date;
              fi_fdcId := fdcId selectedFood |}
  end.

(** *** The micro-nutrient line of the selected-food panel *)

(** A rendered amount.  It stands for the number
    [Math.round(perHundred * (forQuantity / 100))] that the browser computes
    in double precision; the operands are kept, the number is not
    computed. *)
Record RoundedAmount := mkRoundedAmount {
  perHundred : Q;
  forQuantity : Q
}.

(** What the panel renders below the four macros: [None] is a nutrient that
    is not rendered, [Some a] one rendered with the amount [a]. *)
Record MicroDisplay := mkMicroDisplay {
  fiberShown : option RoundedAmount;
  calciumShown : option RoundedAmount;
  ironShown : option RoundedAmount
}.

(** The conditional block of the panel ([getNutrientValue(..., 1079) > 0 &&
    ...]); calcium and iron are rendered inside the fiber block. *)
Definition microNutrientDisplay (selectedFood : FoodSearchResult) (quantity : Q)
  : MicroDisplay :=
  let get id := getNutrientValue (Some (nutrients selectedFood)) id in
  let shown id := Some (mkRoundedAmount (get id) quantity) in
  if gt0 (get FIBER_ID) then
    {| fiberShown := shown FIBER_ID;
       calciumShown := if gt0 (get CALCIUM_ID) then shown CALCIUM_ID else None;
       ironShown := if gt0 (get IRON_ID) then shown IRON_ID else None |}
  else
    {| fiberShown := None; calciumShown := None; ironShown := None |}.

(** *** The hook [useNutritionApi] *)

(** The two remote searches of [lib/api], by what their promises settle
    to.  The curated search returns raw rows, some of which may be null. *)
Record Api := mkApi {
  searchFoodsApi : string -> promise (list FoodSearchResult);
  searchIndianFoods : string -> promise (list (option IndianFood))
}.

Record HookState := mkHookState {
  isSearching : bool;
  isSearchingIndian : bool;
  error : option Error
}.

Definition setIsSearching (b : bool) (st : HookState) : HookState :=
  {| isSearching := b; isSearchingIndian := isSearchingIndian st; error := error st |}.

Definition setIsSearchingIndian (b : bool) (st : HookState) : HookState :=
  {| isSearching := isSearching st; isSearchingIndian := b; error := error st |}.

Definition setError (e : option Error) (st : HookState) : HookState :=
  {| isSearching := isSearching st; isSearchingIndian := isSearchingIndian st; error := e |}.

(** [!query || query.trim().length < 2]. *)
Definition tooShort (query : string) : bool :=
  negb (truthy_str query) || (String.length (trim query) <? 2)%nat.

(** [searchFoods]: the USDA search. *)
Definition searchFoods (api : Api) (query : string) (st : HookState)
  : HookState * list FoodSearchResult :=
  if tooShort query then (st, [])
  else
    let st := setError None (setIsSearching true st) in
    match searchFoodsApi api query with
    | Resolved results => (setIsSearching false st, results)
    | Rejected err =>
        let error := asError err "Unknown error occurred" in
        (setIsSearching false (setError (Some error) st), [])
    end.

(** [searchIndianFoodsWithFormat]: the curated search. *)
Definition searchIndianFoodsWithFormat (api : Api) (query : string) (st : HookState)
  : HookState * list FoodSearchResult :=
  if tooShort query then (st, [])
  else
    let st := setError None (setIsSearchingIndian true st) in
    match searchIndianFoods api query with
    | Resolved results =>
        (setIsSearchingIndian false st, map convertIndianFoodToSearchResult results)
    | Rejected err =>
        let error := asError err "Failed to search Indian foods" in
        (setIsSearchingIndian false (setError (Some error) st), [])
    end.

(** The [try] block of [searchAllFoods]. *)
Definition searchAllFoods_try (api : Api) (query : string)
  : promise (list FoodSearchResult) :=
  p <- all2 (catch (searchFoodsApi api query) (fun _ => []))
            (catch (searchIndianFoods api query) (fun _ => [])) ;;
  let '(usda, indian) := p in
  let formattedIndianFoods := map convertIndianFoodToSearchResult indian in
  Resolved (formattedIndianFoods ++ usda).

(** [searchAllFoods]: the combined search of the two remote sources. *)
Definition searchAllFoods (api : Api) (query : string) (st : HookState)
  : HookState * list FoodSearchResult :=
  if tooShort query then (st, [])
  else
    let st := setError None (setIsSearching true st) in
    match searchAllFoods_try api query with
    | Resolved results => (setIsSearching false st, results)
    | Rejected err =>
        let error := asError err "Error searching for foods" in
        (setIsSearching false (setError (Some error) st), [])
    end.

(** *** The search effect of [TrackFoodForm] *)

Inductive SearchMode : Type := ModeAll | ModeIndian | ModeUsda | ModeCustom.

Record FormState := mkFormState {
  searchResults : list FoodSearchResult;
  showResults : bool
}.

(** [food.foodName.toLowerCase().includes(searchQuery.toLowerCase())]. *)
Definition matchesQuery (searchQuery : string) (food : CustomFood) : bool :=
  includes (toLowerCase (cf_foodName food)) (toLowerCase searchQuery).

(** The body of the debounced search; [customFoods] is [None] while the
    query for the user's custom foods has no data. *)
Definition searchEffect (api : Api) (searchMode : SearchMode)
    (customFoods : option (list CustomFood)) (searchQuery : string)
    (st : HookState) : HookState * FormState :=
  if (2 <=? String.length searchQuery)%nat then
    let '(st', results) :=
      match searchMode, customFoods with
      | ModeIndian, _ => searchIndianFoodsWithFormat api searchQuery st
      | ModeUsda, _ => searchFoods api searchQuery st
      | ModeCustom, Some customFoods =>
          let filteredCustomFoods := filter (matchesQuery searchQuery) customFoods in
          (st, map convertCustomFoodToSearchResult filteredCustomFoods)
      | ModeCustom, None => (st, [])
      | ModeAll, _ =>
          let '(st', results) := searchAllFoods api searchQuery st in
          match customFoods with
          | Some customFoods =>
              let filteredCustomFoods := filter (matchesQuery searchQuery) customFoods in
              let customResults := map convertCustomFoodToSearchResult filteredCustomFoods in
              (st', customResults ++ results)
          | None => (st', results)
          end
      end in
    (st', {| searchResults := results; showResults := true |})
  else
    (st, {| searchResults := []; showResults := false |}).

End Client.

(** ** Server: the tables and the asynchronous storage methods *)

Module Storage.

(** A table row: the serial primary key and the inserted columns. *)
Record Row (A : Type) := mkRow {
  row_id : Z;
  row_data : A
}.
Arguments mkRow {A} row_id row_data.
Arguments row_id {A} r.
Arguments row_data {A} r.

(** A table: its rows in insertion order and the next value of the serial
    key. *)
Record Table (A : Type) := mkTable {
  rows : list (Row A);
  nextId : Z
}.
Arguments mkTable {A} rows nextId.
Arguments rows {A} t.
Arguments nextId {A} t.

Definition emptyTable {A} : Table A := mkTable [] 1.

(** [select().from(t).where(p)]. *)
Definition selectWhere {A} (p : Row A -> bool) (t : Table A) : list (Row A) :=
  filter p (rows t).

(** [insert(t).values(vs).returning()]: one statement, the rows are keyed
    in order. *)
Fixpoint keyed {A} (next : Z) (vs : list A) : list (Row A) :=
  match vs with
  | [] => []
  | v :: vs' => mkRow next v :: keyed (next + 1) vs'
  end.

Definition insertValues {A} (vs : list A) (t : Table A) : list (Row A) * Table A :=
  let new := keyed (nextId t) vs in
  (new, mkTable (rows t ++ new) (nextId t + Z.of_nat (length vs))).

(** [update(t).set(f).where(p).returning()]. *)
Definition updateWhere {A} (p : Row A -> bool) (f : A -> A) (t : Table A)
  : list (Row A) * Table A :=
  let upd r := if p r then mkRow (row_id r) (f (row_data r)) else r in
  (map upd (filter p (rows t)), mkTable (map upd (rows t)) (nextId t)).

(** The columns of the curated table. *)
Record InsertIndianFood := mkInsertIndianFood {
  in_foodName : string;
  in_calories : Q;
  in_protein : Q;
  in_carbs : Q;
  in_fat : Q;
  in_fiber : option Q;
  in_calcium : option Q;
  in_iron : option Q;
  in_foodGroup : option string;
  in_foodCode : option string
}.

(** The columns of the custom foods table. *)
Record InsertCustomFood := mkInsertCustomFood {
  cu_userId : Z;
  cu_foodName : string;
  cu_calories : Q;
  cu_protein : Q;
  cu_carbs : Q;
  cu_fat : Q;
  cu_foodGroup : option string
}.

(** The columns of the water intake table. *)
Record InsertWaterIntake := mkInsertWaterIntake {
  wi_userId : Z;
  wi_date : string;
  wi_amount : Q;
  wi_goal : Q
}.

Definition IndianFood := Row InsertIndianFood.
Definition CustomFood := Row InsertCustomFood.
Definition WaterIntake := Row InsertWaterIntake.

(** The database: the three tables the operations below touch. *)
Record Db := mkDb {
  indianFoods : Table InsertIndianFood;
  customFoods : Table InsertCustomFood;
  waterIntake : Table InsertWaterIntake
}.

Definition emptyDb : Db := mkDb emptyTable emptyTable emptyTable.

(** An asynchronous computation over the database.  Each [Query] is one
    awaited statement: on the database [db] it leaves [write db] and the
    task goes on as [next db].  A statement runs atomically; between two of
    them the task is suspended and another request may run. *)
Inductive task (A : Type) : Type :=
| Ret (a : A)
| Query (write : Db -> Db) (next : Db -> task A).
Arguments Ret {A} a.
Arguments Query {A} write next.

Fixpoint bind {A B} (t : task A) (k : A -> task B) : task B :=
  match t with
  | Ret a => k a
  | Query w n => Query w (fun db => bind (n db) k)
  end.

(** One awaited statement, given as its result and its effect. *)
Definition await {A} (stmt : Db -> A * Db) : task A :=
  Query (fun db => snd (stmt db)) (fun db => Ret (fst (stmt db))).

(** A task run to completion with no other request in between. *)
Fixpoint run {A} (t : task A) (db : Db) : A * Db :=
  match t with
  | Ret a => (a, db)
  | Query w n => run (n db) (w db)
  end.

(** One statement of a task; a task that has returned stays as it is. *)
Definition step {A} (t : task A) (db : Db) : task A * Db :=
  match t with
  | Ret a => (Ret a, db)
  | Query w n => (n db, w db)
  end.

(** Two requests in flight: the schedule says which one runs its next
    statement ([true] the first, [false] the second); when the schedule is
    used up, what is left of the first runs, then what is left of the
    second. *)
Fixpoint interleave {A B} (sched : list bool) (t1 : task A) (t2 : task B)
    (db : Db) : A * B * Db :=
  match sched with
  | [] =>
      let (a, db1) := run t1 db in
      let (b, db2) := run t2 db1 in
      (a, b, db2)
  | true :: sched' =>
      let (t1', db') := step t1 db in interleave sched' t1' t2 db'
  | false :: sched' =>
      let (t2', db') := step t2 db in interleave sched' t1 t2' db'
  end.

(** Statements on one table. *)
Definition onIndianFoods {A} (f : Table InsertIndianFood -> A * Table InsertIndianFood)
  : task A :=
  await (fun db =>
    let (a, t) := f (indianFoods db) in
    (a, mkDb t (customFoods db) (waterIntake db))).

Definition onCustomFoods {A} (f : Table InsertCustomFood -> A * Table InsertCustomFood)
  : task A :=
  await (fun db =>
    let (a, t) := f (customFoods db) in
    (a, mkDb (indianFoods db) t (waterIntake db))).

Definition onWaterIntake {A} (f : Table InsertWaterIntake -> A * Table InsertWaterIntake)
  : task A :=
  await (fun db =>
    let (a, t) := f (waterIntake db) in
    (a, mkDb (indianFoods db) (customFoods db) t)).

(** A statement that only reads. *)
Definition reading {A R} (f : Table A -> R) : Table A -> R * Table A :=
  fun t => (f t, t).

(** [orderBy]: insertion of a row into rows ordered by [le]. *)
Fixpoint insertBy {A} (le : A -> A -> bool) (x : A) (l : list A) : list A :=
  match l with
  | [] => [x]
  | y :: l' => if le x y then x :: l else y :: insertBy le x l'
  end.

Fixpoint orderBy {A} (le : A -> A -> bool) (l : list A) : list A :=
  match l with
  | [] => []
  | x :: l' => insertBy le x (orderBy le l')
  end.

Section Engine.

(** Two operators of the database engine: [ilike name pattern], and the
    order of the collation on text. *)
Variable ilike : string -> string -> bool.
Variable textLeb : string -> string -> bool.

(** The pattern [`%${query}%`]. *)
Definition anywhere (query : string) : string := "%" ++ query ++ "%".

(** *** Indian foods *)

Definition getIndianFoods : task (list IndianFood) :=
  onIndianFoods (reading (selectWhere (fun _ => true))).

Definition getIndianFoodById (id : Z) : task (option IndianFood) :=
  bind (onIndianFoods (reading (selectWhere (fun r => Z.eqb (row_id r) id))))
       (fun result => Ret (hd_error result)).

Definition searchIndianFoods (query : string) : task (list IndianFood) :=
  onIndianFoods (reading (fun t =>
    firstn 20 (selectWhere
      (fun r => ilike (in_foodName (row_data r)) (anywhere query)) t))).

Definition createIndianFood (food : InsertIndianFood) : task (option IndianFood) :=
  bind (onIndianFoods (insertValues [food]))
       (fun result => Ret (hd_error result)).

Definition createManyIndianFoods (foods : list InsertIndianFood)
  : task (list IndianFood) :=
  if (length foods =? 0)%nat then Ret []
  else
    bind (onIndianFoods (insertValues foods))
         (fun result => Ret result).

(** *** Custom foods *)

Definition getCustomFoods (userId : Z) : task (list CustomFood) :=
  onCustomFoods (reading (fun t =>
    orderBy (fun a b => textLeb (cu_foodName (row_data a)) (cu_foodName (row_data b)))
      (selectWhere (fun r => Z.eqb (cu_userId (row_data r)) userId) t))).

Definition getCustomFoodById (id : Z) : task (option CustomFood) :=
  bind (onCustomFoods (reading (selectWhere (fun r => Z.eqb (row_id r) id))))
       (fun result => Ret (hd_error result)).

Definition searchCustomFoods (userId : Z) (query : string) : task (list CustomFood) :=
  onCustomFoods (reading (fun t =>
    firstn 20 (selectWhere
      (fun r => Z.eqb (cu_userId (row_data r)) userId &&
                ilike (cu_foodName (row_data r)) (anywhere query)) t))).

Definition createCustomFood (food : InsertCustomFood) : task (option CustomFood) :=
  bind (onCustomFoods (insertValues [food]))
       (fun result => Ret (hd_error result)).

End Engine.

(** *** Water intake *)

Definition getWaterIntake (userId : Z) (date : string) : task (option WaterIntake) :=
  bind (onWaterIntake (reading (selectWhere
          (fun r => Z.eqb (wi_userId (row_data r)) userId &&
                    String.eqb (wi_date (row_data r)) date))))
       (fun result => Ret (hd_error result)).

Definition createOrUpdateWaterIntake (data : InsertWaterIntake)
  : task (option WaterIntake) :=
  bind (getWaterIntake (wi_userId data) (wi_date data)) (fun existing =>
  match existing with
  | Some existing =>
      bind (onWaterIntake (updateWhere
              (fun r => Z.eqb (row_id r) (row_id existing))
              (fun old => mkInsertWaterIntake (wi_userId old) (wi_date old)
                            (wi_amount data) (wi_goal data))))
           (fun result => Ret (hd_error result))
  | None =>
      bind (onWaterIntake (insertValues [data]))
           (fun result => Ret (hd_error result))
  end).

(** The water intake records stored for a user and a day. *)
Definition recordsFor (userId : Z) (date : string) (db : Db) : list WaterIntake :=
  selectWhere (fun r => Z.eqb (wi_userId (row_data r)) userId &&
                        String.eqb (wi_date (row_data r)) date)
              (waterIntake db).

End Storage.

(** ** Server: the route handlers *)

Module Routes.
Import Storage.

(** What a handler sends as JSON. *)
Inductive Json : Type :=
| JMessage (message : string)
| JIndianFoods (foods : list IndianFood)
| JCustomFoods (foods : list CustomFood)
| JCustomFood (food : CustomFood)
| JWaterIntake (intake : option WaterIntake)
| JDefaultWaterIntake (userId : Z) (date : string) (amount goal : Q).

Record Response := mkResponse {
  status : Z;
  json : Json
}.

(** The [catch] clause shared by the [POST] handlers. *)
Definition failed (error : Js.thrown) (fallback : string) : Response :=
  match error with
  | Js.ThrownError e => mkResponse 400 (JMessage (Js.message e))
  | Js.ThrownOther => mkResponse 500 (JMessage fallback)
  end.

(** [xs.map(x => schema.parse(x))]: the elements are parsed from the left
    and the first failure is thrown. *)
Fixpoint mapParse {A B} (parse : A -> Js.Error + B) (xs : list A)
  : Js.Error + list B :=
  match xs with
  | [] => inr []
  | x :: xs' =>
      match parse x with
      | inl e => inl e
      | inr y =>
          match mapParse parse xs' with
          | inl e => inl e
          | inr ys => inr (y :: ys)
          end
      end
  end.

Section Schemas.

(** The request body before validation, and [insertIndianFoodSchema.parse],
    which returns the validated columns or throws a validation error. *)
Variable Raw : Type.
Variable parseIndianFood : Raw -> Js.Error + InsertIndianFood.

(** A request body: an array of elements or anything else. *)
Inductive Body : Type :=
| NotArray
| IsArray (foods : list Raw).

(** [POST /indian-foods/batch]. *)
Definition postIndianFoodsBatch (body : Body) : task Response :=
  match body with
  | NotArray => Ret (mkResponse 400 (JMessage "Request body must be an array"))
  | IsArray foods =>
      match mapParse parseIndianFood foods with
      | inl error =>
          Ret (failed (Js.ThrownError error) "Failed to create Indian foods batch")
      | inr validatedFoods =>
          bind (createManyIndianFoods validatedFoods) (fun createdFoods =>
          Ret (mkResponse 201 (JIndianFoods createdFoods)))
      end
  end.

End Schemas.
Arguments NotArray {Raw}.
Arguments IsArray {Raw} foods.

Section Engine.

Variable ilike : string -> string -> bool.
Variable textLeb : string -> string -> bool.

(** [GET /custom-foods?userId]; [None] is a missing parameter. *)
Definition getCustomFoodsRoute (userId : option Z) : task Response :=
  match userId with
  | None => Ret (mkResponse 400 (JMessage "userId query parameter is required"))
  | Some userId =>
      bind (getCustomFoods textLeb userId) (fun foods =>
      Ret (mkResponse 200 (JCustomFoods foods)))
  end.

(** [GET /custom-foods/search?userId&query]. *)
Definition searchCustomFoodsRoute (userId : option Z) (query : option string)
  : task Response :=
  match userId, query with
  | Some userId, Some query =>
      if Js.truthy_str query then
        bind (searchCustomFoods ilike userId query) (fun foods =>
        Ret (mkResponse 200 (JCustomFoods foods)))
      else Ret (mkResponse 400 (JMessage "userId and query parameters are required"))
  | _, _ => Ret (mkResponse 400 (JMessage "userId and query parameters are required"))
  end.

End Engine.

(** [GET /custom-foods/:id]: the request names no user. *)
Definition getCustomFoodByIdRoute (id : Z) : task Response :=
  bind (getCustomFoodById id) (fun food =>
  match food with
  | Some food => Ret (mkResponse 200 (JCustomFood food))
  | None => Ret (mkResponse 404 (JMessage "Custom food not found"))
  end).

(** [GET /water-intake?userId&date]; a parameter that is missing is [None],
    and a missing or empty one is refused. *)
Definition getWaterIntakeRoute (userId : option Z) (date : option string)
  : task Response :=
  match userId, date with
  | Some userId, Some date =>
      if Js.truthy_str date then
        bind (getWaterIntake userId date) (fun intake =>
        match intake with
        | Some intake => Ret (mkResponse 200 (JWaterIntake (Some intake)))
        | None => Ret (mkResponse 200 (JDefaultWaterIntake userId date 0 2000))
        end)
      else
        Ret (mkResponse 400 (JMessage "userId and date query parameters are required"))
  | _, _ =>
      Ret (mkResponse 400 (JMessage "userId and date query parameters are required"))
  end.

Section WaterSchema.

(** [insertWaterIntakeSchema.parse], as for the curated foods. *)
Variable RawWater : Type.
Variable parseWaterIntake : RawWater -> Js.Error + InsertWaterIntake.

(** [POST /water-intake]. *)
Definition postWaterIntake (body : RawWater) : task Response :=
  match parseWaterIntake body with
  | inl error => Ret (failed (Js.ThrownError error) "Failed to create water intake")
  | inr parsedBody =>
      bind (createOrUpdateWaterIntake parsedBody) (fun intake =>
      Ret (mkResponse 201 (JWaterIntake intake)))
  end.

End WaterSchema.

(** The body of a [PATCH /water-intake/:id]: each field is a number or is
    missing. *)
Record PatchBody := mkPatchBody {
  pb_amount : option Q;
  pb_goal : option Q
}.

(** [PATCH /water-intake/:id]. *)
Definition patchWaterIntake (id : Z) (body : PatchBody) : task Response :=
  bind (onWaterIntake (reading (selectWhere (fun r => Z.eqb (row_id r) id))))
       (fun existingIntake =>
  match existingIntake with
  | [] => Ret (mkResponse 404 (JMessage "Water intake record not found"))
  | existing :: _ =>
      let updatedData :=
        {| wi_userId := wi_userId (row_data existing);
           wi_date := wi_date (row_data existing);
           wi_amount := Js.or_num (pb_amount body) (wi_amount (row_data existing));
           wi_goal := Js.or_num (pb_goal body) (wi_goal (row_data existing)) |} in
      bind (createOrUpdateWaterIntake updatedData) (fun intake =>
      Ret (mkResponse 200 (JWaterIntake intake)))
  end).

End Routes.

(** ** Derived notions and sample data *)

Import Js Client.

(** The per-100 value of a nutrient of a result. *)
Definition per100 (food : FoodSearchResult) (id : Z) : Q :=
  getNutrientValue (Some (nutrients food)) id.

(** A result whose energy entry comes after another nutrient. *)
Definition apple : FoodSearchResult :=
  {| fdcId := "171688";
     description := "Apples, raw";
     nutrients :=
       [ mkNutrient 1003 "Protein" "203" "g" (3 # 10);
         mkNutrient 1008 "Energy" "208" "kcal" 50;
         mkNutrient 1005 "Carbohydrate, by difference" "205" "g" 14 ];
     dataType := Some "SR Legacy"; foodCode := None; brandName := None;
     foodGroup := None; isIndianFood := false; isCustomFood := false |}.

(** What a settled promise of a list contributes when a rejection degrades
    to the empty list. *)
Definition settledOr {A} (p : promise (list A)) : list A :=
  match p with
  | Resolved l => l
  | Rejected _ => []
  end.

Definition usdaContribution (api : Api) (query : string) : list FoodSearchResult :=
  settledOr (searchFoodsApi api query).

Definition indianContribution (api : Api) (query : string)
  : list (option IndianFood) :=
  settledOr (Client.searchIndianFoods api query).

(** A curated row, a custom food and a USDA result that all match "dal";
    the curated row and the custom food share the native id 5. *)
Definition dalTadka : IndianFood :=
  {| if_id := 5; if_foodName := Some "Dal Tadka";
     if_calories := Some 120%Q; if_protein := Some 6%Q; if_carbs := Some 15%Q;
     if_fat := Some 4%Q; if_fiber := Some 3%Q; if_calcium := None; if_iron := None;
     if_foodGroup := None; if_foodCode := Some "IN-005" |}.

Definition homeDal : CustomFood :=
  {| cf_id := 5; cf_userId := 1; cf_foodName := "Home DAL";
     cf_calories := 110; cf_protein := 7; cf_carbs := 14; cf_fat := 3;
     cf_foodGroup := None |}.

Definition oats : CustomFood :=
  {| cf_id := 6; cf_userId := 1; cf_foodName := "Overnight oats";
     cf_calories := 150; cf_protein := 5; cf_carbs := 27; cf_fat := 3;
     cf_foodGroup := Some "Breakfast" |}.

Definition myFoods : list CustomFood := [oats; homeDal].

Definition usdaDal : FoodSearchResult :=
  {| fdcId := usdaFdcId 2345;
     description := "Lentils, dal, cooked";
     nutrients := [ mkNutrient 1008 "Energy" "208" "kcal" 116 ];
     dataType := Some "Survey (FNDDS)"; foodCode := None; brandName := None;
     foodGroup := None; isIndianFood := false; isCustomFood := false |}.

Definition idle : HookState :=
  {| isSearching := false; isSearchingIndian := false; error := None |}.

(** Both remote sources answer. *)
Definition dalApi : Api :=
  {| searchFoodsApi := fun _ => Resolved [usdaDal];
     searchIndianFoods := fun _ => Resolved [Some dalTadka] |}.

(** The USDA proxy fails, the curated search answers. *)
Definition usdaDownApi : Api :=
  {| searchFoodsApi := fun _ => Rejected (ThrownError (mkError "500: Nutrition API responded with status: 429"));
     searchIndianFoods := fun _ => Resolved [Some dalTadka] |}.

(** The curated search fails, the USDA proxy answers. *)
Definition indianDownApi : Api :=
  {| searchFoodsApi := fun _ => Resolved [usdaDal];
     searchIndianFoods := fun _ => Rejected ThrownOther |}.

(** Both fail. *)
Definition allDownApi : Api :=
  {| searchFoodsApi := fun _ => Rejected ThrownOther;
     searchIndianFoods := fun _ => Rejected (ThrownError (mkError "Failed to fetch")) |}.

(** A result has a slot for every canonical nutrient id. *)
Definition populatesCanonicalSlots (r : FoodSearchResult) : Prop :=
  forall id, In id canonical_ids ->
    exists n, In n (nutrients r) /\ nutrientId n = id.

(** A curated row in which every optional field is missing. *)
Definition bareIndianFood (id : Z) : IndianFood :=
  {| if_id := id; if_foodName := None;
     if_calories := None; if_protein := None; if_carbs := None; if_fat := None;
     if_fiber := None; if_calcium := None; if_iron := None;
     if_foodGroup := None; if_foodCode := None |}.

(** A decimal numeral starts with a digit or, below zero, with the sign. *)
Definition startsNumeral (s : string) : bool :=
  match s with
  | EmptyString => false
  | String c _ =>
      let n := nat_of_ascii c in
      (n =? 45)%nat || ((48 <=? n)%nat && (n <=? 57)%nat)
  end.





Section ServerNotions.
Import Storage Routes.

(** C9 as the specification words it: no read of the custom-foods
    interface made for a user returns a food owned by another user. *)
Definition neverVisibleAcrossUsers (ilike textLeb : string -> string -> bool)
    (db : Db) : Prop :=
  forall A B : Z, A <> B ->
    (forall r, In r (fst (run (getCustomFoods textLeb A) db)) ->
               cu_userId (row_data r) <> B) /\
    (forall query r, In r (fst (run (searchCustomFoods ilike A query) db)) ->
               cu_userId (row_data r) <> B) /\
    (forall id r, fst (run (getCustomFoodById id) db) = Some r ->
               cu_userId (row_data r) <> B).

(** A sample engine: [ilike] against a pattern ["%q%"] without further wild
    cards, and the byte order on text. *)
Definition sampleIlike (name pattern : string) : bool :=
  let q := String.substring 1 (String.length pattern - 2) pattern in
  includes (toLowerCase name) (toLowerCase q).

Definition sampleTextLeb : string -> string -> bool := String.leb.

(** A database in which user 1 and user 2 own one custom food each, with
    two curated rows and one water intake record of user 1. *)
Definition chai : InsertCustomFood :=
  mkInsertCustomFood 1 "Masala chai" 60 2 9 2 None.

Definition proteinShake : InsertCustomFood :=
  mkInsertCustomFood 2 "Protein shake" 180 30 8 3 (Some "Drinks").

Definition idli : InsertIndianFood :=
  mkInsertIndianFood "Idli" 58 2 12 (1 # 10) (Some (1 # 2)) None None
    (Some "Breakfast") None.

Definition dosa : InsertIndianFood :=
  mkInsertIndianFood "Dosa" 168 4 29 4 None None None None None.

Definition upma : InsertIndianFood :=
  mkInsertIndianFood "Upma" 132 3 21 4 None None None None None.

Definition sampleDb : Db :=
  {| indianFoods := mkTable [mkRow 1 idli; mkRow 2 dosa] 3;
     customFoods := mkTable [mkRow 1 chai; mkRow 2 proteinShake] 3;
     waterIntake :=
       mkTable [mkRow 1 (mkInsertWaterIntake 1 "2024-05-01" 500 2000)] 2 |}.

(** A sample schema: an element of the request is either complete or lacks
    a required field. *)
Definition sampleParse (raw : option InsertIndianFood)
  : Js.Error + InsertIndianFood :=
  match raw with
  | Some food => inr food
  | None => inl (mkError "Required")
  end.

(** Two upserts for the same user and day. *)
Definition glass : InsertWaterIntake :=
  mkInsertWaterIntake 7 "2024-05-02" 250 2000.

Definition bottle : InsertWaterIntake :=
  mkInsertWaterIntake 7 "2024-05-02" 750 2000.

End ServerNotions.

(** ** Server: deletion, and the tables of the food diary *)

Module Diary.
Import Storage.

(** [delete(t).where(p).returning()]. *)
Definition deleteWhere {A} (p : Row A -> bool) (t : Table A)
  : list (Row A) * Table A :=
  (filter p (rows t), mkTable (filter (fun r => negb (p r)) (rows t)) (nextId t)).

(** [deleteCustomFood]: the statement selects on the id alone. *)
Definition deleteCustomFood (id : Z) : Storage.task bool :=
  Storage.bind (onCustomFoods (deleteWhere (fun r => Z.eqb (row_id r) id)))
    (fun result => Storage.Ret (0 <? length result)%nat).

(** [a || null] on a numeric column and on a text column. *)
Definition orNullNum (a : option Z) : option Z :=
  match a with
  | Some x => if Z.eqb x 0 then None else Some x
  | None => None
  end.

Definition orNullStr (a : option string) : option string :=
  match a with
  | Some s => if Js.truthy_str s then Some s else None
  | None => None
  end.

(** [eq(column, v)] on a nullable column: a null never compares equal. *)
Definition eqCol (column : option Z) (v : Z) : bool :=
  match column with
  | Some x => Z.eqb x v
  | None => false
  end.

(** The columns of the food items table. *)
Record InsertFoodItem := mkInsertFoodItem {
  fo_userId : option Z;
  fo_foodName : string;
  fo_quantity : Q;
  fo_unit : string;
  fo_calories : Q;
  fo_protein : Q;
  fo_carbs : Q;
  fo_fat : Q;
  fo_mealType : string;
  fo_date : string;
  fo_fdcId : option string
}.

(** The columns of the user goals table. *)
Record InsertUserGoal := mkInsertUserGoal {
  ug_userId : option Z;
  ug_calorieGoal : Q;
  ug_proteinGoal : Q;
  ug_carbsGoal : Q;
  ug_fatGoal : Q
}.

(** [Partial<Omit<InsertUserGoal, "userId">>], the declared type of the
    updates [updateUserGoals] takes: a missing field is [None]. *)
Record UserGoalUpdates := mkUserGoalUpdates {
  up_calorieGoal : option Q;
  up_proteinGoal : option Q;
  up_carbsGoal : option Q;
  up_fatGoal : option Q
}.

Definition FoodItem := Row InsertFoodItem.
Definition UserGoal := Row InsertUserGoal.

(** The two tables of the diary.  No operation touches them together with
    the tables of [Storage.Db], so they are kept as a state of their own. *)
Record DiaryDb := mkDiaryDb {
  foodItems : Table InsertFoodItem;
  userGoals : Table InsertUserGoal
}.

Definition emptyDiary : DiaryDb := mkDiaryDb emptyTable emptyTable.

(** Asynchronous computations over the diary, as [Storage.task] is over
    [Storage.Db]: one [Query] per awaited statement. *)
Inductive task (A : Type) : Type :=
| Ret (a : A)
| Query (write : DiaryDb -> DiaryDb) (next : DiaryDb -> task A).
Arguments Ret {A} a.
Arguments Query {A} write next.

Fixpoint bind {A B} (t : task A) (k : A -> task B) : task B :=
  match t with
  | Ret a => k a
  | Query w n => Query w (fun db => bind (n db) k)
  end.

Definition await {A} (stmt : DiaryDb -> A * DiaryDb) : task A :=
  Query (fun db => snd (stmt db)) (fun db => Ret (fst (stmt db))).

Fixpoint run {A} (t : task A) (db : DiaryDb) : A * DiaryDb :=
  match t with
  | Ret a => (a, db)
  | Query w n => run (n db) (w db)
  end.

Definition onFoodItems {A} (f : Table InsertFoodItem -> A * Table InsertFoodItem)
  : task A :=
  await (fun db =>
    let (a, t) := f (foodItems db) in (a, mkDiaryDb t (userGoals db))).

Definition onUserGoals {A} (f : Table InsertUserGoal -> A * Table InsertUserGoal)
  : task A :=
  await (fun db =>
    let (a, t) := f (userGoals db) in (a, mkDiaryDb (foodItems db) t)).

(** *** Food items *)

Definition getFoodItems (userId : Z) (date : string) : task (list FoodItem) :=
  onFoodItems (reading (selectWhere
    (fun r => eqCol (fo_userId (row_data r)) userId &&
              String.eqb (fo_date (row_data r)) date))).

Definition getFoodItemsByMealType (userId : Z) (date mealType : string)
  : task (list FoodItem) :=
  onFoodItems (reading (selectWhere
    (fun r => eqCol (fo_userId (row_data r)) userId &&
              String.eqb (fo_date (row_data r)) date &&
              String.eqb (fo_mealType (row_data r)) mealType))).

(** The values [createFoodItem] hands to the insert. *)
Definition foodItemValues (insertFoodItem : InsertFoodItem) : InsertFoodItem :=
  {| fo_userId := orNullNum (fo_userId insertFoodItem);
     fo_foodName := fo_foodName insertFoodItem;
     fo_quantity := fo_quantity insertFoodItem;
     fo_unit := fo_unit insertFoodItem;
     fo_calories := fo_calories insertFoodItem;
     fo_protein := fo_protein insertFoodItem;
     fo_carbs := fo_carbs insertFoodItem;
     fo_fat := fo_fat insertFoodItem;
     fo_mealType := fo_mealType insertFoodItem;
     fo_date := fo_date insertFoodItem;
     fo_fdcId := orNullStr (fo_fdcId insertFoodItem) |}.

Definition createFoodItem (insertFoodItem : InsertFoodItem) : task (option FoodItem) :=
  bind (onFoodItems (insertValues [foodItemValues insertFoodItem]))
       (fun result => Ret (hd_error result)).

Definition deleteFoodItem (id : Z) : task bool :=
  bind (onFoodItems (deleteWhere (fun r => Z.eqb (row_id r) id)))
       (fun result => Ret (0 <? length result)%nat).

(** *** User goals *)

Definition getUserGoals (userId : Z) : task (option UserGoal) :=
  bind (onUserGoals (reading (selectWhere
          (fun r => eqCol (ug_userId (row_data r)) userId))))
       (fun result => Ret (hd_error result)).

Definition userGoalValues (insertUserGoal : InsertUserGoal) : InsertUserGoal :=
  {| ug_userId := orNullNum (ug_userId insertUserGoal);
     ug_calorieGoal := ug_calorieGoal insertUserGoal;
     ug_proteinGoal := ug_proteinGoal insertUserGoal;
     ug_carbsGoal := ug_carbsGoal insertUserGoal;
     ug_fatGoal := ug_fatGoal insertUserGoal |}.

Definition createUserGoals (insertUserGoal : InsertUserGoal) : task (option UserGoal) :=
  bind (onUserGoals (insertValues [userGoalValues insertUserGoal]))
       (fun result => Ret (hd_error result)).

(** [set(userGoalUpdates)]: the supplied columns are assigned, the others
    keep their value. *)
Definition orElse (a : option Q) (old : Q) : Q :=
  match a with
  | Some x => x
  | None => old
  end.

Definition setUserGoal (u : UserGoalUpdates) (old : InsertUserGoal) : InsertUserGoal :=
  {| ug_userId := ug_userId old;
     ug_calorieGoal := orElse (up_calorieGoal u) (ug_calorieGoal old);
     ug_proteinGoal := orElse (up_proteinGoal u) (ug_proteinGoal old);
     ug_carbsGoal := orElse (up_carbsGoal u) (ug_carbsGoal old);
     ug_fatGoal := orElse (up_fatGoal u) (ug_fatGoal old) |}.

(** An update object without a value: the statement cannot be built or run,
    and the call throws. *)
Definition noValues (u : UserGoalUpdates) : bool :=
  match up_calorieGoal u, up_proteinGoal u, up_carbsGoal u, up_fatGoal u with
  | None, None, None, None => true
  | _, _, _, _ => false
  end.

(** How a call ends: with a value, or with a throw. *)
Inductive outcome (A : Type) : Type :=
| Returned (a : A)
| Threw.
Arguments Returned {A} a.
Arguments Threw {A}.

Definition updateUserGoals (userId : Z) (userGoalUpdates : UserGoalUpdates)
  : task (outcome (option UserGoal)) :=
  bind (getUserGoals userId) (fun existing =>
  match existing with
  | None => Ret (Returned None)
  | Some existing =>
      if noValues userGoalUpdates then Ret Threw
      else
        bind (onUserGoals (updateWhere
                (fun r => Z.eqb (row_id r) (row_id existing))
                (setUserGoal userGoalUpdates)))
             (fun result => Ret (Returned (hd_error result)))
  end).

(** *** The handlers *)

Inductive Json : Type :=
| JMessage (message : string)
| JFoodItems (items : list FoodItem)
| JFoodItem (item : option FoodItem)
| JUserGoal (goals : option UserGoal)
| JNothing.

Record Response := mkResponse {
  status : Z;
  json : Json
}.

(** [GET /food-items?userId&date]; a parameter that is missing or empty is
    [None]. *)
Definition getFoodItemsRoute (userId : option Z) (date : option string)
  : task Response :=
  match userId, orNullStr date with
  | Some userId, Some date =>
      bind (getFoodItems userId date) (fun items =>
      Ret (mkResponse 200 (JFoodItems items)))
  | _, _ =>
      Ret (mkResponse 400 (JMessage "userId and date query parameters are required"))
  end.

(** [DELETE /custom-foods/:id], on the tables of [Storage.Db]. *)
Definition deleteCustomFoodRoute (id : Z) : Storage.task Response :=
  Storage.bind (deleteCustomFood id) (fun success =>
  if success then Storage.Ret (mkResponse 204 JNothing)
  else Storage.Ret (mkResponse 404 (JMessage "Custom food not found"))).

(** [DELETE /food-items/:id]. *)
Definition deleteFoodItemRoute (id : Z) : task Response :=
  bind (deleteFoodItem id) (fun success =>
  if success then Ret (mkResponse 204 JNothing)
  else Ret (mkResponse 404 (JMessage "Food item not found"))).

(** The goals a first read creates. *)
Definition defaultGoals (userId : Z) : InsertUserGoal :=
  {| ug_userId := Some userId;
     ug_calorieGoal := 2000;
     ug_proteinGoal := 120;
     ug_carbsGoal := 250;
     ug_fatGoal := 65 |}.

(** [GET /user-goals/:userId]. *)
Definition getUserGoalsRoute (userId : Z) : task Response :=
  bind (getUserGoals userId) (fun goals =>
  match goals with
  | Some goals => Ret (mkResponse 200 (JUserGoal (Some goals)))
  | None =>
      bind (createUserGoals (defaultGoals userId)) (fun newGoals =>
      Ret (mkResponse 200 (JUserGoal newGoals)))
  end).

Section Schemas.

(** [insertFoodItemSchema.parse], as for the curated foods. *)
Variable Raw : Type.
Variable parseFoodItem : Raw -> Js.Error + InsertFoodItem.

(** [POST /food-items]. *)
Definition postFoodItems (body : Raw) : task Response :=
  match parseFoodItem body with
  | inl error =>
      Ret (mkResponse 400 (JMessage (Js.message error)))
  | inr parsedBody =>
      bind (createFoodItem parsedBody) (fun newItem =>
      Ret (mkResponse 201 (JFoodItem newItem)))
  end.

End Schemas.

End Diary.

(** ** Well-formed tables *)

Section TableNotions.
Import Storage.

(** The serial key of a table: the ids of its rows are distinct and below
    the next id. *)
Definition wfTable {A} (t : Table A) : Prop :=
  NoDup (map row_id (rows t)) /\
  Forall (fun r => (row_id r < nextId t)%Z) (rows t).

Definition wfDb (db : Db) : Prop :=
  wfTable (indianFoods db) /\ wfTable (customFoods db) /\ wfTable (waterIntake db).

End TableNotions.

(** ** Further sample data *)

(** A query of two characters of which one is a blank. *)
Definition paddedQuery : string := " d".

(** A micro-nutrient line with nothing rendered. *)
Definition nothingShown : MicroDisplay :=
  {| fiberShown := None; calciumShown := None; ironShown := None |}.

(** The value of an optional native field, 0 when it is missing. *)
Definition nativeOr0 (a : option Q) : Q :=
  match a with
  | Some x => x
  | None => 0
  end.

(** ** Sample diary *)

Section DiaryNotions.
Import Storage Diary.

Definition porridge : InsertFoodItem :=
  {| fo_userId := Some 1%Z; fo_foodName := "Porridge"; fo_quantity := 200;
     fo_unit := "g"; fo_calories := 140; fo_protein := 5; fo_carbs := 24;
     fo_fat := 3; fo_mealType := "breakfast"; fo_date := "2024-05-01";
     fo_fdcId := Some "custom-6" |}.

Definition thali : InsertFoodItem :=
  {| fo_userId := Some 1%Z; fo_foodName := "Thali"; fo_quantity := 350;
     fo_unit := "g"; fo_calories := 620; fo_protein := 21; fo_carbs := 88;
     fo_fat := 19; fo_mealType := "lunch"; fo_date := "2024-05-01";
     fo_fdcId := None |}.

(** An item submitted for the user id 0. *)
Definition anonymousSnack : InsertFoodItem :=
  {| fo_userId := Some 0%Z; fo_foodName := "Biscuit"; fo_quantity := 20;
     fo_unit := "g"; fo_calories := 90; fo_protein := 1; fo_carbs := 13;
     fo_fat := 4; fo_mealType := "snack"; fo_date := "2024-05-01";
     fo_fdcId := Some "" |}.

Definition sampleDiary : DiaryDb :=
  {| foodItems := mkTable [mkRow 1 porridge] 2;
     userGoals := mkTable [mkRow 1 (mkInsertUserGoal (Some 1%Z) 1800 100 220 60)] 2 |}.

(** The stored goals of a user. *)
Definition goalsOf (userId : Z) (db : DiaryDb) : list UserGoal :=
  selectWhere (fun r => eqCol (ug_userId (row_data r)) userId) (userGoals db).

(** Updates that change the calorie goal only, and updates without a
    value. *)
Definition fewerCalories : UserGoalUpdates :=
  {| up_calorieGoal := Some 1600%Q; up_proteinGoal := None;
     up_carbsGoal := None; up_fatGoal := None |}.

Definition emptyUpdates : UserGoalUpdates :=
  {| up_calorieGoal := None; up_proteinGoal := None;
     up_carbsGoal := None; up_fatGoal := None |}.

End DiaryNotions.

(** * Properties *)

(** ** Nutrient lookup and serving computation *)

(** [find] returns the first entry that satisfies the test. *)
Lemma find_first {A} (p : A -> bool) (pre post : list A) (x : A) :
  (forall y, In y pre -> p y = false) -> p x = true ->
  find p (pre ++ x :: post) = Some x.
Proof.
  intros Hpre Hx. induction pre as [|y pre IH]; simpl.
  - now rewrite Hx.
  - rewrite (Hpre y (or_introl eq_refl)). apply IH.
    intros z Hz. apply Hpre. now right.
Qed.

Lemma find_none {A} (p : A -> bool) (l : list A) :
  (forall y, In y l -> p y = false) -> find p l = None.
Proof.
  intros H. induction l as [|y l IH]; simpl; [reflexivity|].
  rewrite (H y (or_introl eq_refl)). apply IH. intros z Hz. apply H. now right.
Qed.

(** The looked-up value is that of the first entry with the id. *)
Lemma getNutrientValue_first (pre post : list Nutrient) (n : Nutrient) (id : Z) :
  (forall m, In m pre -> nutrientId m <> id) -> nutrientId n = id ->
  getNutrientValue (Some (pre ++ n :: post)) id = value n.
Proof.
  intros Hpre Hn. unfold getNutrientValue.
  rewrite find_first; [reflexivity| |].
  - intros m Hm. apply Z.eqb_neq. now apply Hpre.
  - now apply Z.eqb_eq.
Qed.

(** With no entry of that id the looked-up value is 0. *)
Lemma getNutrientValue_missing (l : list Nutrient) (id : Z) :
  (forall m, In m l -> nutrientId m <> id) ->
  getNutrientValue (Some l) id = 0%Q.
Proof.
  intros H. unfold getNutrientValue. rewrite find_none; [reflexivity|].
  intros m Hm. apply Z.eqb_neq. now apply H.
Qed.

(** C1. For every search result and every quantity, the item handed to the
    store has each macro equal to the looked-up per-100 value of its
    canonical id times [quantity / 100]; the looked-up value is that of the
    first entry carrying the id, and 0 when there is none (also when the
    list itself is missing), so the computation always returns.  With 50
    calories per 100 units and quantity 200 the calories are 100, and with
    quantity 0 all four macros are 0. *)
Theorem calculateNutrition_scales_lookup :
  (forall (food : FoodSearchResult) (quantity : Q)
          (userId : Z) (date unit mealType : string),
      exists item,
        handleAddFood userId date (Some food) quantity unit mealType = Some item /\
        fi_calories item = (per100 food CALORIES_ID * (quantity / 100))%Q /\
        fi_protein item = (per100 food PROTEIN_ID * (quantity / 100))%Q /\
        fi_carbs item = (per100 food CARBS_ID * (quantity / 100))%Q /\
        fi_fat item = (per100 food FAT_ID * (quantity / 100))%Q) /\
  (forall pre n post id,
      (forall m, In m pre -> nutrientId m <> id) -> nutrientId n = id ->
      getNutrientValue (Some (pre ++ n :: post)) id = value n) /\
  (forall l id,
      (forall m, In m l -> nutrientId m <> id) ->
      getNutrientValue (Some l) id = 0%Q) /\
  (forall id, getNutrientValue None id = 0%Q) /\
  (forall food quantity,
      (per100 food CALORIES_ID == 50)%Q -> (quantity == 200)%Q ->
      (calories (calculateNutrition food (quantity / 100)) == 100)%Q) /\
  (forall food quantity,
      (quantity == 0)%Q ->
      let n := calculateNutrition food (quantity / 100) in
      (calories n == 0 /\ protein n == 0 /\ carbs n == 0 /\ fat n == 0)%Q).
Proof.
  split; [|split; [|split; [|split; [|split]]]].
  - intros food quantity userId date unit mealType.
    eexists. split; [reflexivity|]. simpl. repeat split.
  - intros pre n post id Hpre Hn. now apply getNutrientValue_first.
  - intros l id H. now apply getNutrientValue_missing.
  - reflexivity.
  - intros food quantity H50 H200. unfold calculateNutrition, per100 in *. simpl.
    rewrite H50, H200. reflexivity.
  - intros food quantity H0 n. subst n. unfold calculateNutrition. simpl.
    rewrite H0. repeat split; unfold Qdiv; ring.
Qed.

Lemma calculateNutrition_scales_lookup_witness :
  getNutrientValue (Some (nutrients apple)) CALORIES_ID = 50%Q /\
  getNutrientValue (Some (nutrients apple)) FAT_ID = 0%Q /\
  (calories (calculateNutrition apple (200 / 100)) == 100)%Q /\
  (fat (calculateNutrition apple (0 / 100)) == 0)%Q.
Proof.
  destruct calculateNutrition_scales_lookup
    as (_ & Hfirst & Hmissing & _ & H200 & H0).
  split; [|split; [|split]].
  - apply (Hfirst [mkNutrient 1003 "Protein" "203" "g" (3 # 10)]
                  (mkNutrient 1008 "Energy" "208" "kcal" 50)
                  [mkNutrient 1005 "Carbohydrate, by difference" "205" "g" 14]
                  CALORIES_ID).
    + intros m [<-|[]]. vm_compute. discriminate.
    + reflexivity.
  - apply (Hmissing (nutrients apple) FAT_ID).
    intros m [<-|[<-|[<-|[]]]]; vm_compute; discriminate.
  - apply (H200 apple 200%Q); reflexivity.
  - apply (H0 apple 0%Q). reflexivity.
Defined.

(** ** The combined search *)

Lemma trimStart_length (s : string) :
  (String.length (trimStart s) <= String.length s)%nat.
Proof.
  induction s as [|c s IH]; simpl; [lia|].
  destruct (is_space c); simpl; lia.
Qed.

Lemma trimEnd_length (s : string) :
  (String.length (trimEnd s) <= String.length s)%nat.
Proof.
  induction s as [|c s IH]; simpl; [lia|].
  destruct (trimEnd s) as [|d t]; simpl in *.
  - destruct (is_space c); simpl; lia.
  - lia.
Qed.

(** A query that passes the guard of the hook also passes the guard of the
    effect. *)
Lemma tooShort_false_length (query : string) :
  tooShort query = false -> (2 <=? String.length query)%nat = true.
Proof.
  unfold tooShort, trim. intros H.
  apply orb_false_iff in H as [_ H]. apply Nat.ltb_ge in H.
  apply Nat.leb_le.
  pose proof (trimEnd_length (trimStart query)).
  pose proof (trimStart_length query). lia.
Qed.

(** What each remote source contributes to a combined search. *)
Lemma searchAllFoods_try_resolves (api : Api) (query : string) :
  searchAllFoods_try api query =
  Resolved (map convertIndianFoodToSearchResult (indianContribution api query)
            ++ usdaContribution api query).
Proof.
  unfold searchAllFoods_try, indianContribution, usdaContribution, settledOr.
  destruct (searchFoodsApi api query), (searchIndianFoods api query); reflexivity.
Qed.

(** The combined search in mode [all] is the concatenation of the three
    contributions, custom foods first. *)
Lemma searchEffect_all_concat (api : Api) (customFoods : list CustomFood)
    (query : string) (st : HookState) :
  tooShort query = false ->
  searchResults (snd (searchEffect api ModeAll (Some customFoods) query st)) =
  map convertCustomFoodToSearchResult (filter (matchesQuery query) customFoods)
  ++ map convertIndianFoodToSearchResult (indianContribution api query)
  ++ usdaContribution api query.
Proof.
  intros Hq. unfold searchEffect, searchAllFoods.
  rewrite (tooShort_false_length _ Hq), Hq, searchAllFoods_try_resolves.
  reflexivity.
Qed.

(** C3. In mode [all], for a query that passes the length guard and matches
    one custom food, one curated food and one USDA food, the results are
    the custom result, then the curated one, then the USDA one. *)
Theorem searchEffect_all_order (api : Api) (customFoods : list CustomFood)
    (query : string) (st : HookState)
    (c : CustomFood) (i : option IndianFood) (u : FoodSearchResult) :
  tooShort query = false ->
  filter (matchesQuery query) customFoods = [c] ->
  searchIndianFoods api query = Resolved [i] ->
  searchFoodsApi api query = Resolved [u] ->
  searchResults (snd (searchEffect api ModeAll (Some customFoods) query st)) =
  [convertCustomFoodToSearchResult c; convertIndianFoodToSearchResult i; u].
Proof.
  intros Hq Hc Hi Hu. rewrite (searchEffect_all_concat _ _ _ _ Hq).
  unfold indianContribution, usdaContribution. rewrite Hc, Hi, Hu. reflexivity.
Qed.

Lemma searchEffect_all_order_witness :
  map fdcId
    (searchResults (snd (searchEffect dalApi ModeAll (Some myFoods) "dal" idle))) =
  ["custom-5"; "indian-5"; "2345"].
Proof.
  rewrite (searchEffect_all_order dalApi myFoods "dal" idle
             homeDal (Some dalTadka) usdaDal);
    reflexivity.
Defined.

(** C7. In mode [all], whatever the two remote searches settle to, the
    combined search returns: a rejected source contributes the empty list,
    the results of the other are kept, and no error is recorded. *)
Theorem searchAllFoods_isolates_failures (api : Api) (query : string)
    (st : HookState) :
  tooShort query = false ->
  searchAllFoods api query st =
  ( {| isSearching := false; isSearchingIndian := isSearchingIndian st;
       error := None |},
    map convertIndianFoodToSearchResult (indianContribution api query)
    ++ usdaContribution api query ) /\
  (forall e, searchFoodsApi api query = Rejected e ->
             usdaContribution api query = []) /\
  (forall e, searchIndianFoods api query = Rejected e ->
             indianContribution api query = []) /\
  (forall l, searchFoodsApi api query = Resolved l ->
             usdaContribution api query = l) /\
  (forall l, searchIndianFoods api query = Resolved l ->
             indianContribution api query = l).
Proof.
  intros Hq. split.
  - unfold searchAllFoods. rewrite Hq, searchAllFoods_try_resolves. reflexivity.
  - unfold usdaContribution, indianContribution, settledOr.
    repeat split; intros x Hx; now rewrite Hx.
Qed.

Lemma searchAllFoods_isolates_failures_witness :
  map fdcId (snd (searchAllFoods usdaDownApi "dal" idle)) = ["indian-5"] /\
  map fdcId (snd (searchAllFoods indianDownApi "dal" idle)) = ["2345"] /\
  snd (searchAllFoods allDownApi "dal" idle) = [].
Proof.
  split; [|split].
  - rewrite (proj1 (searchAllFoods_isolates_failures usdaDownApi "dal" idle eq_refl)).
    reflexivity.
  - rewrite (proj1 (searchAllFoods_isolates_failures indianDownApi "dal" idle eq_refl)).
    reflexivity.
  - rewrite (proj1 (searchAllFoods_isolates_failures allDownApi "dal" idle eq_refl)).
    reflexivity.
Defined.

(** ** The source adapters *)

(** The curated adapter lists the seven canonical ids, in the order of the
    nutrient table. *)
Lemma convertIndianFood_ids (food : IndianFood) :
  map nutrientId (nutrients (convertIndianFoodToSearchResult (Some food))) =
  canonical_ids.
Proof. reflexivity. Qed.

Lemma populates_of_ids (r : FoodSearchResult) :
  map nutrientId (nutrients r) = canonical_ids -> populatesCanonicalSlots r.
Proof.
  intros H id Hid. rewrite <- H in Hid.
  apply in_map_iff in Hid as (n & Hn & Hin). now exists n.
Qed.

(** The claim C4 makes of every adapter fails for the custom one: its
    result has no fiber, calcium or iron slot. *)
Lemma convertCustomFood_lacks_micro_slots :
  ~ populatesCanonicalSlots (convertCustomFoodToSearchResult homeDal).
Proof.
  intros H. destruct (H FIBER_ID) as (n & Hin & Hid).
  - unfold canonical_ids. simpl. tauto.
  - simpl in Hin. destruct Hin as [<-|[<-|[<-|[<-|[]]]]]; discriminate Hid.
Qed.

(** C4, amended.  The curated adapter always returns: for a record it
    fills the seven canonical slots, each with the record's field or with
    0 when the field is missing, and for a null record it returns the
    placeholder named "Invalid food data" with no nutrients.  The custom
    adapter, on a custom food, fills the four macro slots with the
    record's fields. *)
Theorem adapters_populate_slots :
  (forall food : IndianFood,
      let r := convertIndianFoodToSearchResult (Some food) in
      populatesCanonicalSlots r /\
      per100 r CALORIES_ID = or_num (if_calories food) 0 /\
      per100 r PROTEIN_ID = or_num (if_protein food) 0 /\
      per100 r CARBS_ID = or_num (if_carbs food) 0 /\
      per100 r FAT_ID = or_num (if_fat food) 0 /\
      per100 r FIBER_ID = or_num (if_fiber food) 0 /\
      per100 r CALCIUM_ID = or_num (if_calcium food) 0 /\
      per100 r IRON_ID = or_num (if_iron food) 0) /\
  (forall d, or_num None d = d) /\
  (forall id : Z,
      map value (nutrients (convertIndianFoodToSearchResult (Some (bareIndianFood id))))
      = [0; 0; 0; 0; 0; 0; 0]%Q) /\
  (description (convertIndianFoodToSearchResult None) = "Invalid food data" /\
   nutrients (convertIndianFoodToSearchResult None) = []) /\
  (forall food : CustomFood,
      let r := convertCustomFoodToSearchResult food in
      per100 r CALORIES_ID = cf_calories food /\
      per100 r PROTEIN_ID = cf_protein food /\
      per100 r CARBS_ID = cf_carbs food /\
      per100 r FAT_ID = cf_fat food).
Proof.
  split; [|split; [|split; [|split]]].
  - intros food r. split.
    + apply populates_of_ids, convertIndianFood_ids.
    + repeat split.
  - reflexivity.
  - reflexivity.
  - split; reflexivity.
  - intros food r. repeat split.
Qed.

(** ** Canonical ids *)

Lemma show_startsNumeral (n : Z) : startsNumeral (show n) = true.
Proof.
  unfold show. destruct n as [|p|p]; simpl; [reflexivity| |reflexivity].
  destruct (Pos.to_uint p); reflexivity.
Qed.

Lemma usdaFdcId_startsNumeral (native : N) :
  startsNumeral (usdaFdcId native) = true.
Proof. apply show_startsNumeral. Qed.

(** C5. The ids the adapters produce are pairwise different across
    sources, whatever the native ids: a curated row with native id [n] gets
    "indian-n", a custom food with native id [m] gets "custom-m", a USDA id
    is the native number as it is; in particular the native id 5 gives
    "indian-5" on the curated side and "custom-5" on the custom side. *)
Theorem fdcId_disjoint_across_sources :
  (forall (i : option IndianFood) (c : CustomFood) (u : N),
      fdcId (convertIndianFoodToSearchResult i)
        <> fdcId (convertCustomFoodToSearchResult c) /\
      fdcId (convertIndianFoodToSearchResult i) <> usdaFdcId u /\
      fdcId (convertCustomFoodToSearchResult c) <> usdaFdcId u) /\
  (forall food : IndianFood,
      fdcId (convertIndianFoodToSearchResult (Some food))
      = ("indian-" ++ show (if_id food))%string) /\
  (forall food : CustomFood,
      fdcId (convertCustomFoodToSearchResult food)
      = ("custom-" ++ show (cf_id food))%string) /\
  fdcId (convertIndianFoodToSearchResult (Some dalTadka)) = "indian-5" /\
  fdcId (convertCustomFoodToSearchResult homeDal) = "custom-5" /\
  "indian-5" <> "custom-5".
Proof.
  split; [|repeat split; discriminate].
  intros i c u. split; [|split].
  - destruct i; simpl; discriminate.
  - intros H. apply (f_equal startsNumeral) in H.
    rewrite usdaFdcId_startsNumeral in H. destruct i; discriminate H.
  - intros H. apply (f_equal startsNumeral) in H.
    rewrite usdaFdcId_startsNumeral in H. discriminate H.
Qed.

(** ** The micro-nutrient line *)

Lemma gt0_iff (x : Q) : gt0 x = true <-> (0 < x)%Q.
Proof.
  unfold gt0. rewrite negb_true_iff. split.
  - intros H. apply Qnot_le_lt. intros Hle.
    apply Qle_bool_iff in Hle. congruence.
  - intros H. destruct (Qle_bool x 0) eqn:E; [|reflexivity].
    apply Qle_bool_iff in E. exfalso. apply (Qlt_not_le _ _ H E).
Qed.

Lemma some_not_none {A} (o : option A) : o <> None <-> exists v, o = Some v.
Proof.
  destruct o as [a|]; split; try congruence.
  - intros _. now exists a.
  - intros [v Hv]. discriminate Hv.
Qed.




Section ServerProperties.
Import Storage Routes.

(** ** Batch creation of curated foods *)

Lemma mapParse_fails {A B} (parse : A -> Js.Error + B) (xs : list A) :
  (exists x e, In x xs /\ parse x = inl e) ->
  exists e, mapParse parse xs = inl e.
Proof.
  intros (x & e & Hin & Hx). induction xs as [|y xs IH]; [destruct Hin|].
  simpl. destruct (parse y) as [e'|v] eqn:Ey; [now exists e'|].
  destruct Hin as [->|Hin]; [congruence|].
  destruct (IH Hin) as [e' ->]. now exists e'.
Qed.

(** C8. When an element of the submitted array fails validation, the batch
    handler answers 400 without issuing a statement: the database, and so
    the stored curated foods, are what they were before the request. *)
Theorem postIndianFoodsBatch_all_or_nothing
    (Raw : Type) (parseIndianFood : Raw -> Js.Error + InsertIndianFood)
    (foods : list Raw) (db : Db) :
  (exists x e, In x foods /\ parseIndianFood x = inl e) ->
  exists message,
    postIndianFoodsBatch Raw parseIndianFood (IsArray foods)
      = Ret (mkResponse 400 (JMessage message)) /\
    run (postIndianFoodsBatch Raw parseIndianFood (IsArray foods)) db
      = (mkResponse 400 (JMessage message), db).
Proof.
  intros H. destruct (mapParse_fails _ _ H) as [e He].
  exists (Js.message e). unfold postIndianFoodsBatch. rewrite He. split; reflexivity.
Qed.

Lemma postIndianFoodsBatch_all_or_nothing_witness :
  exists message,
    postIndianFoodsBatch _ sampleParse (IsArray [Some upma; None; Some dosa])
      = Ret (mkResponse 400 (JMessage message)) /\
    run (postIndianFoodsBatch _ sampleParse (IsArray [Some upma; None; Some dosa]))
        sampleDb
      = (mkResponse 400 (JMessage message), sampleDb).
Proof.
  apply (postIndianFoodsBatch_all_or_nothing _ sampleParse
           [Some upma; None; Some dosa] sampleDb).
  exists None, (mkError "Required"). split; [simpl; tauto|reflexivity].
Defined.

(** ** Custom foods and their owners *)

Lemma insertBy_In {A} (le : A -> A -> bool) (x y : A) (l : list A) :
  In y (insertBy le x l) <-> y = x \/ In y l.
Proof.
  induction l as [|z l IH]; simpl.
  - intuition congruence.
  - destruct (le x z); simpl; [intuition congruence|].
    rewrite IH. intuition congruence.
Qed.

(** Ordering the rows neither adds nor drops one. *)
Lemma orderBy_In {A} (le : A -> A -> bool) (y : A) (l : list A) :
  In y (orderBy le l) <-> In y l.
Proof.
  induction l as [|z l IH]; simpl; [tauto|].
  rewrite insertBy_In, IH. intuition congruence.
Qed.

Lemma limit_In {A} (n : nat) (y : A) (l : list A) :
  In y (firstn n l) -> In y l.
Proof.
  revert l. induction n as [|n IH]; intros [|z l]; simpl; try tauto.
  intros [->|H]; [now left|right; now apply IH].
Qed.

Lemma hd_error_filter {A} (p : A -> bool) (l : list A) (x : A) :
  hd_error (filter p l) = Some x -> In x l /\ p x = true.
Proof.
  intros H. apply filter_In.
  destruct (filter p l) as [|y l']; [discriminate|].
  injection H as ->. now left.
Qed.

Lemma hd_error_filter_some {A} (p : A -> bool) (l : list A) (x : A) :
  In x l -> p x = true -> exists y, hd_error (filter p l) = Some y.
Proof.
  intros Hin Hp.
  assert (H : In x (filter p l)) by (apply filter_In; now split).
  destruct (filter p l) as [|y l']; [destruct H|]. now exists y.
Qed.

(** What the three reads return, as queries on the table. *)
Lemma getCustomFoods_run (textLeb : string -> string -> bool) (A : Z) (db : Db) :
  fst (run (getCustomFoods textLeb A) db) =
  orderBy (fun a b => textLeb (cu_foodName (row_data a)) (cu_foodName (row_data b)))
    (filter (fun r => Z.eqb (cu_userId (row_data r)) A) (rows (customFoods db))).
Proof. reflexivity. Qed.

Lemma searchCustomFoods_run (ilike : string -> string -> bool) (A : Z)
    (query : string) (db : Db) :
  fst (run (searchCustomFoods ilike A query) db) =
  firstn 20
    (filter (fun r => Z.eqb (cu_userId (row_data r)) A &&
                      ilike (cu_foodName (row_data r)) (anywhere query))
       (rows (customFoods db))).
Proof. reflexivity. Qed.

Lemma getCustomFoodById_run (id : Z) (db : Db) :
  fst (run (getCustomFoodById id) db) =
  hd_error (filter (fun r => Z.eqb (row_id r) id) (rows (customFoods db))).
Proof. reflexivity. Qed.

Lemma getCustomFoodByIdRoute_run (id : Z) (db : Db) :
  fst (run (getCustomFoodByIdRoute id) db) =
  match fst (run (getCustomFoodById id) db) with
  | Some food => mkResponse 200 (JCustomFood food)
  | None => mkResponse 404 (JMessage "Custom food not found")
  end.
Proof.
  rewrite getCustomFoodById_run. unfold getCustomFoodByIdRoute, getCustomFoodById.
  cbn [bind onCustomFoods await reading run fst snd selectWhere].
  destruct (hd_error _); reflexivity.
Qed.

(** The claim C9 fails on the code: the fetch by id takes no user, and
    returns the food of user 2 to whoever asks for id 2. *)
Lemma getCustomFoodById_crosses_users :
  ~ neverVisibleAcrossUsers sampleIlike sampleTextLeb sampleDb.
Proof.
  intros H. destruct (H 1%Z 2%Z) as (_ & _ & Hid); [discriminate|].
  apply (Hid 2%Z (mkRow 2 proteinShake)); reflexivity.
Qed.

(** C9, amended.  The list and the search of custom foods made for a user
    return stored foods of that user only.  The fetch by id is not scoped
    by user: it returns a stored food with that id, and every stored food
    is returned for its id whoever owns it. *)
Theorem custom_food_reads_by_owner
    (ilike textLeb : string -> string -> bool) (db : Db) :
  (forall A r, In r (fst (run (getCustomFoods textLeb A) db)) ->
      cu_userId (row_data r) = A /\ In r (rows (customFoods db))) /\
  (forall A query r, In r (fst (run (searchCustomFoods ilike A query) db)) ->
      cu_userId (row_data r) = A /\ In r (rows (customFoods db))) /\
  (forall id r, fst (run (getCustomFoodById id) db) = Some r ->
      row_id r = id /\ In r (rows (customFoods db))) /\
  (forall r, In r (rows (customFoods db)) ->
      exists r', fst (run (getCustomFoodById (row_id r)) db) = Some r' /\
                 row_id r' = row_id r /\
                 fst (run (getCustomFoodByIdRoute (row_id r)) db)
                 = mkResponse 200 (JCustomFood r')).
Proof.
  split; [|split; [|split]].
  - intros A r H. rewrite getCustomFoods_run in H.
    apply orderBy_In in H. apply filter_In in H as [Hin Hp].
    apply Z.eqb_eq in Hp. now split.
  - intros A query r H. rewrite searchCustomFoods_run in H.
    apply limit_In in H. apply filter_In in H as [Hin Hp].
    apply andb_true_iff in Hp as [Hp _]. apply Z.eqb_eq in Hp. now split.
  - intros id r H. rewrite getCustomFoodById_run in H.
    apply hd_error_filter in H as [Hin Hp]. apply Z.eqb_eq in Hp. now split.
  - intros r Hin.
    destruct (hd_error_filter_some (fun x => Z.eqb (row_id x) (row_id r))
                (rows (customFoods db)) r Hin (Z.eqb_refl _)) as [r' Hr'].
    exists r'. rewrite getCustomFoodByIdRoute_run, getCustomFoodById_run, Hr'.
    split; [reflexivity|]. split; [|reflexivity].
    apply hd_error_filter in Hr' as [_ Hp]. now apply Z.eqb_eq in Hp.
Qed.

Lemma custom_food_reads_by_owner_witness :
  cu_userId chai = 1%Z /\
  fst (run (getCustomFoodByIdRoute 2) sampleDb)
  = mkResponse 200 (JCustomFood (mkRow 2 proteinShake)).
Proof.
  destruct (custom_food_reads_by_owner sampleIlike sampleTextLeb sampleDb)
    as (Hlist & _ & _ & Hid).
  split.
  - apply (Hlist 1%Z (mkRow 1 chai)). simpl. now left.
  - destruct (Hid (mkRow 2 proteinShake)) as (r' & Hr' & _ & Hroute).
    + simpl. tauto.
    + simpl in Hr'. injection Hr' as <-. exact Hroute.
Defined.

(** ** Water intake: the upsert and the partial update *)

Lemma filter_map_same {A} (p : A -> bool) (f : A -> A) (l : list A) :
  (forall x, p (f x) = p x) -> filter p (map f l) = map f (filter p l).
Proof.
  intros H. induction l as [|x l IH]; simpl; [reflexivity|].
  rewrite H. destruct (p x); simpl; now rewrite IH.
Qed.

(** The database an upsert leaves when no other request runs meanwhile. *)
Lemma createOrUpdateWaterIntake_run (data : InsertWaterIntake) (db : Db) :
  waterIntake (snd (run (createOrUpdateWaterIntake data) db)) =
  match hd_error (recordsFor (wi_userId data) (wi_date data) db) with
  | Some existing =>
      snd (updateWhere (fun r => Z.eqb (row_id r) (row_id existing))
             (fun old => mkInsertWaterIntake (wi_userId old) (wi_date old)
                           (wi_amount data) (wi_goal data))
             (waterIntake db))
  | None => snd (insertValues [data] (waterIntake db))
  end.
Proof.
  unfold createOrUpdateWaterIntake, getWaterIntake, recordsFor.
  cbn [bind onWaterIntake await reading run fst snd waterIntake].
  destruct (hd_error _); reflexivity.
Qed.

(** Run alone, an upsert creates the record of a user and day that has
    none, and otherwise leaves their number as it is. *)
Lemma createOrUpdateWaterIntake_count (data : InsertWaterIntake) (db : Db) :
  length (recordsFor (wi_userId data) (wi_date data)
            (snd (run (createOrUpdateWaterIntake data) db))) =
  Nat.max 1 (length (recordsFor (wi_userId data) (wi_date data) db)).
Proof.
  unfold recordsFor at 1. unfold selectWhere.
  rewrite createOrUpdateWaterIntake_run.
  unfold recordsFor, selectWhere.
  destruct (filter _ (rows (waterIntake db))) as [|existing rest] eqn:E; simpl.
  - rewrite filter_app, E. simpl.
    now rewrite Z.eqb_refl, String.eqb_refl.
  - rewrite filter_map_same.
    + rewrite E. simpl. now rewrite length_map.
    + intros x. now destruct (Z.eqb (row_id x) (row_id existing)).
Qed.

(** With the empty schedule the second request starts when the first has
    returned. *)
Lemma interleave_nil {A B} (t1 : task A) (t2 : task B) (db : Db) :
  snd (interleave [] t1 t2 db) = snd (run t2 (snd (run t1 db))).
Proof.
  simpl. destruct (run t1 db) as [a db1]. simpl.
  now destruct (run t2 db1).
Qed.

(** Two upserts for a user and day without a record, one after the other,
    leave exactly one record. *)
Lemma createOrUpdateWaterIntake_sequential (d1 d2 : InsertWaterIntake) (db : Db) :
  wi_userId d2 = wi_userId d1 -> wi_date d2 = wi_date d1 ->
  recordsFor (wi_userId d1) (wi_date d1) db = [] ->
  length (recordsFor (wi_userId d1) (wi_date d1)
            (snd (interleave []
                    (createOrUpdateWaterIntake d1)
                    (createOrUpdateWaterIntake d2) db))) = 1%nat.
Proof.
  intros Hu Hd Hnone. rewrite interleave_nil.
  rewrite <- Hu, <- Hd, createOrUpdateWaterIntake_count.
  rewrite Hu, Hd, createOrUpdateWaterIntake_count, Hnone. reflexivity.
Qed.

(** When both upserts read before either writes, both insert. *)
Lemma createOrUpdateWaterIntake_race (d1 d2 : InsertWaterIntake) (db : Db) :
  wi_userId d2 = wi_userId d1 -> wi_date d2 = wi_date d1 ->
  recordsFor (wi_userId d1) (wi_date d1) db = [] ->
  recordsFor (wi_userId d1) (wi_date d1)
    (snd (interleave [true; false; true; false]
            (createOrUpdateWaterIntake d1)
            (createOrUpdateWaterIntake d2) db))
  = [ mkRow (nextId (waterIntake db)) d1;
      mkRow (nextId (waterIntake db) + 1) d2 ].
Proof.
  intros Hu Hd Hnone. unfold recordsFor in *.
  unfold createOrUpdateWaterIntake, getWaterIntake.
  cbn [interleave step bind onWaterIntake await reading run fst snd waterIntake].
  rewrite Hu, Hd, Hnone.
  cbn [hd_error bind run step await onWaterIntake insertValues keyed fst snd
       waterIntake rows nextId length].
  unfold selectWhere in *. cbn [rows].
  rewrite !filter_app, Hnone. simpl.
  now rewrite Hu, Hd, Z.eqb_refl, String.eqb_refl.
Qed.

(** C2 on the code: two upserts of user 7 for the same day on a database
    without a record for them, each reading before the other writes, leave
    two records for that user and day, where the claim has exactly one. *)
Theorem createOrUpdateWaterIntake_concurrent_duplicates :
  recordsFor 7 "2024-05-02"
    (snd (interleave [true; false; true; false]
            (createOrUpdateWaterIntake glass)
            (createOrUpdateWaterIntake bottle) sampleDb))
  = [mkRow 2 glass; mkRow 3 bottle].
Proof. reflexivity. Qed.

(** What [a || d] keeps of a supplied number. *)
Lemma or_num_zero (x d : Q) : (x == 0)%Q -> Js.or_num (Some x) d = d.
Proof.
  intros H. unfold Js.or_num, Js.truthy_num.
  apply Qeq_bool_iff in H. now rewrite H.
Qed.

Lemma or_num_nonzero (x d : Q) : ~ (x == 0)%Q -> Js.or_num (Some x) d = x.
Proof.
  intros H. unfold Js.or_num, Js.truthy_num.
  destruct (Qeq_bool x 0) eqn:E; [|reflexivity].
  apply Qeq_bool_iff in E. contradiction.
Qed.

(** C10 on the code: a [PATCH] that supplies the amount 0 for the record of
    500 ml leaves the amount at 500, where the claim has 0; a supplied
    amount other than 0 is stored. *)
Theorem patchWaterIntake_zero_amount_kept :
  fst (run (patchWaterIntake 1 {| pb_amount := Some 0%Q; pb_goal := None |})
         sampleDb)
  = mkResponse 200
      (JWaterIntake (Some (mkRow 1 (mkInsertWaterIntake 1 "2024-05-01" 500 2000)))) /\
  fst (run (patchWaterIntake 1 {| pb_amount := Some 750%Q; pb_goal := None |})
         sampleDb)
  = mkResponse 200
      (JWaterIntake (Some (mkRow 1 (mkInsertWaterIntake 1 "2024-05-01" 750 2000)))).
Proof. split; reflexivity. Qed.

End ServerProperties.

(** * Further properties of the client *)

(** ** Short queries and failing sources *)

Lemma tooShort_of_trim (query : string) :
  (String.length (trim query) < 2)%nat -> tooShort query = true.
Proof.
  intros H. unfold tooShort. apply orb_true_iff. right. now apply Nat.ltb_lt.
Qed.

(** A query whose trimmed length is below 2 reaches no remote source, in
    any mode: the hook state is left as it was and the results are the
    matching custom foods when the raw query has two characters or more and
    the mode is [all] or [custom], and empty otherwise. *)
Theorem searchEffect_short_query (api : Api) (searchMode : SearchMode)
    (customFoods : option (list CustomFood)) (query : string) (st : HookState) :
  (String.length (trim query) < 2)%nat ->
  fst (searchEffect api searchMode customFoods query st) = st /\
  searchResults (snd (searchEffect api searchMode customFoods query st)) =
    match searchMode, customFoods with
    | (ModeAll | ModeCustom), Some foods =>
        if (2 <=? String.length query)%nat
        then map convertCustomFoodToSearchResult (filter (matchesQuery query) foods)
        else []
    | _, _ => []
    end.
Proof.
  intros H. apply tooShort_of_trim in H.
  unfold searchEffect, searchAllFoods, searchFoods, searchIndianFoodsWithFormat.
  rewrite H.
  destruct (2 <=? String.length query)%nat, searchMode, customFoods as [foods|];
    simpl; rewrite ?app_nil_r; split; reflexivity.
Qed.

Lemma searchEffect_short_query_witness :
  map fdcId (searchResults (snd (searchEffect dalApi ModeAll (Some myFoods)
                                   paddedQuery idle))) = ["custom-5"] /\
  searchResults (snd (searchEffect dalApi ModeUsda (Some myFoods)
                        paddedQuery idle)) = [].
Proof.
  split.
  - rewrite (proj2 (searchEffect_short_query dalApi ModeAll (Some myFoods)
                      paddedQuery idle (Nat.le_refl 2))).
    reflexivity.
  - rewrite (proj2 (searchEffect_short_query dalApi ModeUsda (Some myFoods)
                      paddedQuery idle (Nat.le_refl 2))).
    reflexivity.
Defined.

(** When the USDA search is rejected, the USDA-only mode shows no result
    and records the error (a rejection that is no [Error] under the message
    "Unknown error occurred"), while the combined mode records no error and
    still shows the custom and curated results. *)
Theorem usda_failure_by_mode (api : Api) (customFoods : list CustomFood)
    (query : string) (st : HookState) (e : thrown) :
  tooShort query = false ->
  searchFoodsApi api query = Rejected e ->
  let single := searchEffect api ModeUsda (Some customFoods) query st in
  let combined := searchEffect api ModeAll (Some customFoods) query st in
  searchResults (snd single) = [] /\
  error (fst single) = Some (asError e "Unknown error occurred") /\
  isSearching (fst single) = false /\
  error (fst combined) = None /\
  searchResults (snd combined) =
    map convertCustomFoodToSearchResult (filter (matchesQuery query) customFoods)
    ++ map convertIndianFoodToSearchResult (indianContribution api query).
Proof.
  intros Hq He single combined. subst single combined.
  unfold searchEffect, searchFoods, searchAllFoods.
  rewrite (tooShort_false_length _ Hq), Hq, He, searchAllFoods_try_resolves.
  unfold usdaContribution. rewrite He. simpl. rewrite app_nil_r.
  repeat split.
Qed.

Lemma usda_failure_by_mode_witness :
  error (fst (searchEffect indianDownApi ModeIndian (Some myFoods) "dal" idle))
    = Some (mkError "Failed to search Indian foods") /\
  error (fst (searchEffect usdaDownApi ModeUsda (Some myFoods) "dal" idle))
    = Some (mkError "500: Nutrition API responded with status: 429") /\
  map fdcId (searchResults (snd (searchEffect usdaDownApi ModeAll (Some myFoods)
                                   "dal" idle)))
    = ["custom-5"; "indian-5"].
Proof.
  split; [reflexivity|].
  destruct (usda_failure_by_mode usdaDownApi myFoods "dal" idle
              (ThrownError (mkError "500: Nutrition API responded with status: 429"))
              eq_refl eq_refl) as (_ & Herr & _ & _ & Hres).
  split; [exact Herr|]. rewrite Hres. reflexivity.
Defined.

(** ** What the adapters guarantee downstream *)

Lemma or_str_nonempty (a : option string) (d : string) :
  d <> EmptyString -> or_str a d <> EmptyString.
Proof.
  intros Hd. unfold or_str. destruct a as [[|c s]|]; simpl; try exact Hd.
  discriminate.
Qed.

(** The curated adapter never yields an empty description, whatever the
    record (null, without a name, or with an empty name), and a record
    always gets a non-empty food group. *)
Theorem convertIndianFood_description_nonempty :
  (forall food : option IndianFood,
      description (convertIndianFoodToSearchResult food) <> EmptyString) /\
  (forall food : IndianFood,
      exists g, foodGroup (convertIndianFoodToSearchResult (Some food)) = Some g /\
                g <> EmptyString).
Proof.
  split.
  - intros [food|]; simpl; [|discriminate].
    apply or_str_nonempty. discriminate.
  - intros food. eexists. split; [reflexivity|].
    apply or_str_nonempty. discriminate.
Qed.

(** The 0 default of the curated adapter agrees with the native value. *)
Lemma or_num_0 (a : option Q) : (or_num a 0 == nativeOr0 a)%Q.
Proof.
  unfold or_num, truthy_num, nativeOr0. destruct a as [x|]; [|reflexivity].
  destruct (Qeq_bool x 0) eqn:E; simpl; [|reflexivity].
  apply Qeq_bool_iff in E. now rewrite E.
Qed.

Lemma gt0_or_num_0 (a : option Q) :
  gt0 (or_num a 0) = true <-> exists x, a = Some x /\ (0 < x)%Q.
Proof.
  rewrite gt0_iff, or_num_0. destruct a as [x|]; simpl; split.
  - intros H. now exists x.
  - intros (y & Hy & H). now injection Hy as ->.
  - intros H. exfalso. revert H. apply Qlt_irrefl.
  - intros (y & Hy & _). discriminate Hy.
Qed.

(** For a result of the custom adapter, and for the placeholder of the
    curated adapter, the micro-nutrient line is never rendered, whatever
    the quantity. *)
Theorem microNutrientDisplay_custom_never_shown :
  (forall (food : CustomFood) (quantity : Q),
      microNutrientDisplay (convertCustomFoodToSearchResult food) quantity
      = nothingShown) /\
  (forall quantity : Q,
      microNutrientDisplay (convertIndianFoodToSearchResult None) quantity
      = nothingShown).
Proof. split; reflexivity. Qed.

(** For a curated record the micro-nutrient line follows the native
    fields: fiber is rendered exactly when the record has a positive fiber
    value, and calcium (iron) exactly when the record has a positive fiber
    value and a positive calcium (iron) value; a missing field counts as
    not positive. *)
Theorem microNutrientDisplay_of_curated (food : IndianFood) (quantity : Q) :
  let d := microNutrientDisplay (convertIndianFoodToSearchResult (Some food))
             quantity in
  (fiberShown d <> None <-> exists x, if_fiber food = Some x /\ (0 < x)%Q) /\
  (calciumShown d <> None <->
     (exists x, if_fiber food = Some x /\ (0 < x)%Q) /\
     (exists y, if_calcium food = Some y /\ (0 < y)%Q)) /\
  (ironShown d <> None <->
     (exists x, if_fiber food = Some x /\ (0 < x)%Q) /\
     (exists y, if_iron food = Some y /\ (0 < y)%Q)).
Proof.
  intros d. subst d. rewrite <- !gt0_or_num_0.
  unfold microNutrientDisplay.
  change (getNutrientValue
            (Some (nutrients (convertIndianFoodToSearchResult (Some food))))
            FIBER_ID) with (or_num (if_fiber food) 0).
  change (getNutrientValue
            (Some (nutrients (convertIndianFoodToSearchResult (Some food))))
            CALCIUM_ID) with (or_num (if_calcium food) 0).
  change (getNutrientValue
            (Some (nutrients (convertIndianFoodToSearchResult (Some food))))
            IRON_ID) with (or_num (if_iron food) 0).
  destruct (gt0 (or_num (if_fiber food) 0)),
           (gt0 (or_num (if_calcium food) 0)),
           (gt0 (or_num (if_iron food) 0)); simpl;
    repeat split; try congruence; try tauto; intros [? ?]; congruence.
Qed.

(** ** The logged item *)

Lemma getNutrientValue_nonneg (l : list Nutrient) (id : Z) :
  (forall n, In n l -> (0 <= value n)%Q) ->
  (0 <= getNutrientValue (Some l) id)%Q.
Proof.
  intros H. unfold getNutrientValue.
  destruct (find _ l) as [n|] eqn:E.
  - apply H. now apply find_some in E.
  - apply Qle_refl.
Qed.

(** When no value of the nutrient list is negative and the quantity is not
    negative, none of the four logged macros is negative. *)
Theorem handleAddFood_nonnegative (food : FoodSearchResult) (quantity : Q)
    (userId : Z) (date unit mealType : string) (item : FoodItem) :
  (forall n, In n (nutrients food) -> (0 <= value n)%Q) ->
  (0 <= quantity)%Q ->
  handleAddFood userId date (Some food) quantity unit mealType = Some item ->
  (0 <= fi_calories item /\ 0 <= fi_protein item /\
   0 <= fi_carbs item /\ 0 <= fi_fat item)%Q.
Proof.
  intros Hv Hq H. injection H as <-. simpl.
  assert (Hm : (0 <= quantity / 100)%Q).
  { apply Qle_shift_div_l; [reflexivity|]. now rewrite Qmult_0_l. }
  repeat split; apply Qmult_le_0_compat; try exact Hm;
    now apply getNutrientValue_nonneg.
Qed.

Lemma handleAddFood_nonnegative_witness :
  (0 <= calories (calculateNutrition apple (150 / 100)))%Q.
Proof.
  assert (Hv : forall n, In n (nutrients apple) -> (0 <= value n)%Q).
  { intros n [<-|[<-|[<-|[]]]]; vm_compute; discriminate. }
  assert (Hq : (0 <= 150)%Q) by (vm_compute; discriminate).
  exact (proj1 (handleAddFood_nonnegative apple 150 1 "2024-05-01" "g" "lunch"
                  _ Hv Hq eq_refl)).
Defined.

(** Logging an adapted food: for a custom food the item carries the id
    "custom-" followed by the native id, the food's name, and each macro of
    the food times [quantity / 100]; for a curated record it carries
    "indian-" followed by the native id and each native macro, 0 when
    missing, times [quantity / 100]. *)
Theorem handleAddFood_of_adapted (quantity : Q) (userId : Z)
    (date unit mealType : string) :
  (forall food : CustomFood,
      exists item,
        handleAddFood userId date (Some (convertCustomFoodToSearchResult food))
          quantity unit mealType = Some item /\
        fi_fdcId item = ("custom-" ++ show (cf_id food))%string /\
        fi_foodName item = cf_foodName food /\
        fi_calories item = (cf_calories food * (quantity / 100))%Q /\
        fi_protein item = (cf_protein food * (quantity / 100))%Q /\
        fi_carbs item = (cf_carbs food * (quantity / 100))%Q /\
        fi_fat item = (cf_fat food * (quantity / 100))%Q) /\
  (forall food : IndianFood,
      exists item,
        handleAddFood userId date
          (Some (convertIndianFoodToSearchResult (Some food)))
          quantity unit mealType = Some item /\
        fi_fdcId item = ("indian-" ++ show (if_id food))%string /\
        (fi_calories item == nativeOr0 (if_calories food) * (quantity / 100))%Q /\
        (fi_protein item == nativeOr0 (if_protein food) * (quantity / 100))%Q /\
        (fi_carbs item == nativeOr0 (if_carbs food) * (quantity / 100))%Q /\
        (fi_fat item == nativeOr0 (if_fat food) * (quantity / 100))%Q).
Proof.
  split; intros food; eexists; (split; [reflexivity|]); simpl.
  - repeat split.
  - split; [reflexivity|].
    change (getNutrientValue _ CALORIES_ID) with (or_num (if_calories food) 0).
    change (getNutrientValue _ PROTEIN_ID) with (or_num (if_protein food) 0).
    change (getNutrientValue _ CARBS_ID) with (or_num (if_carbs food) 0).
    change (getNutrientValue _ FAT_ID) with (or_num (if_fat food) 0).
    rewrite !or_num_0. repeat split; reflexivity.
Qed.

(** * Further properties of the storage *)

Section StorageProperties.
Import Storage Routes.

(** ** Tables with distinct ids *)

Lemma keyed_data {A} (vs : list A) (next : Z) :
  map row_data (keyed next vs) = vs.
Proof.
  revert next. induction vs as [|v vs IH]; intros next; simpl;
    [reflexivity|now rewrite IH].
Qed.

(** A row is determined by its id in a well-formed table. *)
Lemma wf_same_id {A} (l : list (Row A)) (r e : Row A) :
  NoDup (map row_id l) -> In r l -> In e l -> row_id r = row_id e -> r = e.
Proof.
  induction l as [|x l IH]; simpl; intros Hnd Hr He Hid; [destruct Hr|].
  inversion Hnd as [|y ys Hnotin Hnd']; subst.
  destruct Hr as [->|Hr], He as [->|He]; try reflexivity.
  - exfalso. apply Hnotin. rewrite Hid. now apply in_map.
  - exfalso. apply Hnotin. rewrite <- Hid. now apply in_map.
  - now apply IH.
Qed.

Lemma filter_false {A} (p : A -> bool) (l : list A) :
  (forall x, In x l -> p x = false) -> filter p l = [].
Proof.
  intros H. induction l as [|x l IH]; simpl; [reflexivity|].
  rewrite (H x (or_introl eq_refl)). apply IH. intros y Hy. apply H. now right.
Qed.

Lemma sampleDb_wf : wfDb sampleDb.
Proof.
  unfold wfDb, wfTable, sampleDb. simpl.
  repeat split; repeat constructor; simpl; try lia; intuition discriminate.
Qed.

(** ** Creating and reading back *)

Lemma filter_fresh_id {A} (l : list (Row A)) (next : Z) :
  Forall (fun r => (row_id r < next)%Z) l ->
  filter (fun r => Z.eqb (row_id r) next) l = [].
Proof.
  intros H. apply filter_false. intros r Hr.
  rewrite Forall_forall in H. specialize (H r Hr). apply Z.eqb_neq. lia.
Qed.

(** A created custom food is stored with the next id and the submitted
    columns; it is then fetched by that id and listed for its owner, and
    the foods stored before are still stored. *)
Theorem createCustomFood_then_read
    (textLeb : string -> string -> bool) (food : InsertCustomFood) (db : Db) :
  wfTable (customFoods db) ->
  let created := mkRow (nextId (customFoods db)) food in
  let db' := snd (run (createCustomFood food) db) in
  fst (run (createCustomFood food) db) = Some created /\
  fst (run (getCustomFoodById (row_id created)) db') = Some created /\
  In created (fst (run (getCustomFoods textLeb (cu_userId food)) db')) /\
  rows (customFoods db') = rows (customFoods db) ++ [created].
Proof.
  intros [_ Hlt] created db'. split; [reflexivity|].
  assert (Hrows : rows (customFoods db') = rows (customFoods db) ++ [created])
    by reflexivity.
  split; [|split; [|exact Hrows]].
  - rewrite getCustomFoodById_run, Hrows, filter_app, filter_fresh_id by exact Hlt.
    simpl. now rewrite Z.eqb_refl.
  - rewrite getCustomFoods_run. apply orderBy_In. apply filter_In. split.
    + rewrite Hrows. apply in_or_app. right. now left.
    + apply Z.eqb_refl.
Qed.

Lemma createCustomFood_then_read_witness :
  fst (run (getCustomFoodById 3)
         (snd (run (createCustomFood proteinShake) sampleDb)))
  = Some (mkRow 3 proteinShake).
Proof.
  apply (createCustomFood_then_read sampleTextLeb proteinShake sampleDb).
  apply sampleDb_wf.
Defined.

(** ** The batch of curated foods, when it passes and when it fails *)

(** The batch passes validation exactly when every element does. *)
Lemma mapParse_inr_iff {A B} (parse : A -> Js.Error + B) (xs : list A) (ys : list B) :
  mapParse parse xs = inr ys <-> Forall2 (fun x y => parse x = inr y) xs ys.
Proof.
  revert ys. induction xs as [|x xs IH]; intros ys; simpl.
  - split.
    + intros H. injection H as <-. constructor.
    + intros H. now inversion H.
  - destruct (parse x) as [e|y] eqn:Ex.
    + split; [discriminate|]. intros H. inversion H; subst. congruence.
    + destruct (mapParse parse xs) as [e|ys'].
      * split; [discriminate|]. intros H. inversion H as [|? ? ? l' Hy Hrest]; subst.
        apply IH in Hrest. discriminate Hrest.
      * split.
        -- intros H. injection H as <-. constructor; [exact Ex|]. now apply IH.
        -- intros H. inversion H as [|? ? ? l' Hy Hrest]; subst.
           apply IH in Hrest. injection Hrest as ->.
           rewrite Ex in Hy. now injection Hy as ->.
Qed.

(** The error of a failing batch is that of its first invalid element. *)
Lemma mapParse_first_failure {A B} (parse : A -> Js.Error + B)
    (pre post : list A) (x : A) (e : Js.Error) :
  Forall (fun y => exists v, parse y = inr v) pre -> parse x = inl e ->
  mapParse parse (pre ++ x :: post) = inl e.
Proof.
  intros Hpre Hx. induction Hpre as [|y pre [v Hv] _ IH]; simpl.
  - now rewrite Hx.
  - now rewrite Hv, IH.
Qed.

(** When every element of the array passes validation, the batch handler
    answers 201 with the created rows: the validated elements, in the
    order of the array, keyed with consecutive ids from the next id on and
    appended to the stored curated foods; the other tables are untouched.
    For the empty array the handler issues no statement: it returns at
    once the answer 201 with no row. *)
Theorem postIndianFoodsBatch_all_valid
    (Raw : Type) (parseIndianFood : Raw -> Js.Error + InsertIndianFood)
    (foods : list Raw) (validated : list InsertIndianFood) (db : Db) :
  Forall2 (fun x y => parseIndianFood x = inr y) foods validated ->
  let created := keyed (nextId (indianFoods db)) validated in
  let db' := snd (run (postIndianFoodsBatch Raw parseIndianFood (IsArray foods)) db) in
  fst (run (postIndianFoodsBatch Raw parseIndianFood (IsArray foods)) db)
    = mkResponse 201 (JIndianFoods created) /\
  rows (indianFoods db') = rows (indianFoods db) ++ created /\
  map row_data created = validated /\
  customFoods db' = customFoods db /\
  waterIntake db' = waterIntake db /\
  (foods = [] ->
   postIndianFoodsBatch Raw parseIndianFood (IsArray foods)
   = Ret (mkResponse 201 (JIndianFoods []))).
Proof.
  intros H created db'. apply mapParse_inr_iff in H.
  subst created db'. unfold postIndianFoodsBatch, createManyIndianFoods.
  rewrite H, keyed_data.
  destruct validated as [|v vs]; simpl.
  - rewrite app_nil_r. repeat split.
  - repeat split. intros ->. discriminate H.
Qed.

Lemma postIndianFoodsBatch_all_valid_witness :
  fst (run (postIndianFoodsBatch _ sampleParse (IsArray [Some upma; Some dosa]))
         sampleDb)
  = mkResponse 201 (JIndianFoods [mkRow 3 upma; mkRow 4 dosa]) /\
  postIndianFoodsBatch _ sampleParse (IsArray [])
  = Ret (mkResponse 201 (JIndianFoods [])).
Proof.
  split.
  - apply (postIndianFoodsBatch_all_valid _ sampleParse
             [Some upma; Some dosa] [upma; dosa] sampleDb).
    repeat constructor.
  - apply (postIndianFoodsBatch_all_valid _ sampleParse [] [] sampleDb);
      [constructor|reflexivity].
Defined.

(** When the elements before an invalid one are all valid, the batch
    handler answers 400 with the message of that first invalid element,
    whatever follows it, and leaves the database as it was. *)
Theorem postIndianFoodsBatch_first_failure
    (Raw : Type) (parseIndianFood : Raw -> Js.Error + InsertIndianFood)
    (pre post : list Raw) (x : Raw) (e : Js.Error) (db : Db) :
  Forall (fun y => exists v, parseIndianFood y = inr v) pre ->
  parseIndianFood x = inl e ->
  run (postIndianFoodsBatch Raw parseIndianFood (IsArray (pre ++ x :: post))) db
  = (mkResponse 400 (JMessage (Js.message e)), db).
Proof.
  intros Hpre Hx. unfold postIndianFoodsBatch.
  now rewrite (mapParse_first_failure _ _ _ _ _ Hpre Hx).
Qed.

Lemma postIndianFoodsBatch_first_failure_witness :
  run (postIndianFoodsBatch _ sampleParse (IsArray [Some upma; None; None]))
      sampleDb
  = (mkResponse 400 (JMessage "Required"), sampleDb).
Proof.
  apply (postIndianFoodsBatch_first_failure _ sampleParse
           [Some upma] [None] None (mkError "Required") sampleDb).
  - constructor; [now exists upma|constructor].
  - reflexivity.
Defined.

(** ** Searching and listing *)

Lemma searchIndianFoods_run (ilike : string -> string -> bool)
    (query : string) (db : Db) :
  fst (run (searchIndianFoods ilike query) db) =
  firstn 20
    (filter (fun r => ilike (in_foodName (row_data r)) (anywhere query))
       (rows (indianFoods db))).
Proof. reflexivity. Qed.

Lemma limit_facts {A} (n : nat) (matches : list A) :
  (length (firstn n matches) <= n)%nat /\
  ((length matches <= n)%nat -> firstn n matches = matches) /\
  exists rest, matches = firstn n matches ++ rest.
Proof.
  split; [apply firstn_le_length|]. split; [apply firstn_all2|].
  exists (skipn n matches). symmetry. apply firstn_skipn.
Qed.

(** Both searches return at most 20 rows: the first ones, in the order of
    the table, of the stored rows whose name the engine matches against
    the pattern (for custom foods, among those of the user); when 20 or
    fewer rows match, they are all returned. *)
Theorem search_limit (ilike : string -> string -> bool) (db : Db) (query : string) :
  (let matches := filter (fun r => ilike (in_foodName (row_data r)) (anywhere query))
                    (rows (indianFoods db)) in
   let found := fst (run (searchIndianFoods ilike query) db) in
   (length found <= 20)%nat /\
   ((length matches <= 20)%nat -> found = matches) /\
   (exists rest, matches = found ++ rest)) /\
  (forall userId,
   let matches := filter (fun r => Z.eqb (cu_userId (row_data r)) userId &&
                                   ilike (cu_foodName (row_data r)) (anywhere query))
                    (rows (customFoods db)) in
   let found := fst (run (searchCustomFoods ilike userId query) db) in
   (length found <= 20)%nat /\
   ((length matches <= 20)%nat -> found = matches) /\
   (exists rest, matches = found ++ rest)).
Proof.
  split.
  - rewrite searchIndianFoods_run. apply limit_facts.
  - intros userId. rewrite searchCustomFoods_run. apply limit_facts.
Qed.

Lemma insertBy_Permutation {A} (le : A -> A -> bool) (x : A) (l : list A) :
  Permutation (insertBy le x l) (x :: l).
Proof.
  induction l as [|y l IH]; simpl; [reflexivity|].
  destruct (le x y); [reflexivity|].
  rewrite IH. apply perm_swap.
Qed.

Lemma orderBy_Permutation {A} (le : A -> A -> bool) (l : list A) :
  Permutation (orderBy le l) l.
Proof.
  induction l as [|x l IH]; simpl; [reflexivity|].
  rewrite insertBy_Permutation. now constructor.
Qed.

Lemma insertBy_Sorted {A} (le : A -> A -> bool) (x : A) (l : list A) :
  (forall a b, le a b = true \/ le b a = true) ->
  Sorted (fun a b => le a b = true) l ->
  Sorted (fun a b => le a b = true) (insertBy le x l).
Proof.
  intros Htotal Hs. induction Hs as [|y l Hs IH Hhd]; simpl.
  - repeat constructor.
  - destruct (le x y) eqn:E.
    + constructor; [now constructor|now constructor].
    + constructor; [exact IH|].
      destruct l as [|z l]; simpl.
      * constructor. destruct (Htotal x y); congruence.
      * destruct (le x z); constructor.
        -- destruct (Htotal x y); congruence.
        -- now inversion Hhd.
Qed.

Lemma orderBy_Sorted {A} (le : A -> A -> bool) (l : list A) :
  (forall a b, le a b = true \/ le b a = true) ->
  Sorted (fun a b => le a b = true) (orderBy le l).
Proof.
  intros Htotal. induction l as [|x l IH]; simpl; [constructor|].
  now apply insertBy_Sorted.
Qed.

(** The list of a user's custom foods holds every stored food of the user
    exactly as often as it is stored, and no other; when the order of the
    engine on text is total, each food of the list is followed by one
    whose name is not smaller. *)
Theorem getCustomFoods_complete_ordered
    (textLeb : string -> string -> bool) (userId : Z) (db : Db) :
  Permutation (fst (run (getCustomFoods textLeb userId) db))
    (filter (fun r => Z.eqb (cu_userId (row_data r)) userId)
       (rows (customFoods db))) /\
  ((forall a b, textLeb a b = true \/ textLeb b a = true) ->
   Sorted (fun r1 r2 => textLeb (cu_foodName (row_data r1))
                                (cu_foodName (row_data r2)) = true)
     (fst (run (getCustomFoods textLeb userId) db))).
Proof.
  rewrite getCustomFoods_run. split.
  - apply orderBy_Permutation.
  - intros Htotal.
    apply (orderBy_Sorted
             (fun a b => textLeb (cu_foodName (row_data a)) (cu_foodName (row_data b)))).
    intros a b. apply Htotal.
Qed.

Lemma getCustomFoods_complete_ordered_witness :
  Sorted (fun r1 r2 => sampleTextLeb (cu_foodName (row_data r1))
                                     (cu_foodName (row_data r2)) = true)
    (fst (run (getCustomFoods sampleTextLeb 1) sampleDb)).
Proof.
  apply (getCustomFoods_complete_ordered sampleTextLeb 1 sampleDb).
  exact String.leb_total.
Defined.

(** ** Deleting a custom food *)

Lemma exists_filter_nonempty {A} (p : A -> bool) (l : list A) :
  (0 <? length (filter p l))%nat = true <-> exists x, In x l /\ p x = true.
Proof.
  rewrite Nat.ltb_lt. split.
  - intros H. destruct (filter p l) as [|x l'] eqn:E; [simpl in H; lia|].
    exists x. apply filter_In. rewrite E. now left.
  - intros (x & Hin & Hp).
    assert (H : In x (filter p l)) by (apply filter_In; now split).
    destruct (filter p l); [destruct H|simpl; lia].
Qed.

(** Deleting a custom food by id names no user: it succeeds exactly when
    a food with that id is stored, whoever owns it, and the handler then
    answers 204 and otherwise 404.  Afterwards no food with that id is
    stored, and the foods with other ids are stored as before, in the same
    order. *)
Theorem deleteCustomFood_effect (id : Z) (db : Db) :
  let success := fst (run (Diary.deleteCustomFood id) db) in
  let db' := snd (run (Diary.deleteCustomFood id) db) in
  (success = true <-> exists r, In r (rows (customFoods db)) /\ row_id r = id) /\
  fst (run (Diary.deleteCustomFoodRoute id) db) =
    (if success then Diary.mkResponse 204 Diary.JNothing
     else Diary.mkResponse 404 (Diary.JMessage "Custom food not found")) /\
  rows (customFoods db') =
    filter (fun r => negb (Z.eqb (row_id r) id)) (rows (customFoods db)) /\
  fst (run (getCustomFoodById id) db') = None /\
  (forall r, In r (rows (customFoods db)) -> row_id r <> id ->
             In r (rows (customFoods db'))).
Proof.
  intros success db'.
  assert (Hrows : rows (customFoods db') =
                  filter (fun r => negb (Z.eqb (row_id r) id)) (rows (customFoods db)))
    by reflexivity.
  split; [|split; [|split; [exact Hrows|split]]].
  - subst success. unfold Diary.deleteCustomFood.
    cbn [bind onCustomFoods await run fst snd Diary.deleteWhere].
    rewrite exists_filter_nonempty. split; intros (r & Hin & H); exists r;
      (split; [exact Hin|]); now apply Z.eqb_eq.
  - subst success. unfold Diary.deleteCustomFoodRoute, Diary.deleteCustomFood.
    cbn [bind onCustomFoods await run fst snd Diary.deleteWhere].
    now destruct (0 <? _)%nat.
  - rewrite getCustomFoodById_run, Hrows.
    rewrite filter_false; [reflexivity|].
    intros r Hr. apply filter_In in Hr as [_ Hr].
    now apply negb_true_iff in Hr.
  - intros r Hin Hid. rewrite Hrows. apply filter_In. split; [exact Hin|].
    apply negb_true_iff. now apply Z.eqb_neq.
Qed.

(** ** Water intake: reading back, other records, and the partial update *)

Lemma waterKey_eq (r : WaterIntake) (userId : Z) (date : string) :
  Z.eqb (wi_userId (row_data r)) userId && String.eqb (wi_date (row_data r)) date
    = true ->
  wi_userId (row_data r) = userId /\ wi_date (row_data r) = date.
Proof.
  intros H. apply andb_true_iff in H as [Hu Hd].
  apply Z.eqb_eq in Hu. apply String.eqb_eq in Hd. now split.
Qed.

Lemma getWaterIntake_run (userId : Z) (date : string) (db : Db) :
  fst (run (getWaterIntake userId date) db) = hd_error (recordsFor userId date db).
Proof. reflexivity. Qed.

(** When a user has at most one record for a day, an upsert for that user
    and day, run alone, leaves exactly one record for them: it holds the
    submitted user, day, amount and goal, whether the upsert created it or
    updated the one there was, and it is the record read back. *)
Theorem createOrUpdateWaterIntake_then_get (data : InsertWaterIntake) (db : Db) :
  (length (recordsFor (wi_userId data) (wi_date data) db) <= 1)%nat ->
  let db' := snd (run (createOrUpdateWaterIntake data) db) in
  exists r,
    recordsFor (wi_userId data) (wi_date data) db' = [r] /\
    row_data r = data /\
    fst (run (getWaterIntake (wi_userId data) (wi_date data)) db') = Some r.
Proof.
  intros Hle db'.
  assert (Hrec : exists r,
             recordsFor (wi_userId data) (wi_date data) db' = [r] /\
             row_data r = data).
  { subst db'. unfold recordsFor at 1. unfold selectWhere.
    rewrite createOrUpdateWaterIntake_run.
    unfold recordsFor, selectWhere in *.
    destruct (filter _ (rows (waterIntake db))) as [|existing rest] eqn:E;
      cbn [hd_error insertValues updateWhere snd rows keyed].
    - rewrite filter_app, E. simpl. rewrite Z.eqb_refl, String.eqb_refl. simpl.
      eexists. split; reflexivity.
    - destruct rest as [|another rest]; [|simpl in Hle; lia].
      rewrite filter_map_same.
      + rewrite E. simpl. rewrite Z.eqb_refl. eexists. split; [reflexivity|].
        assert (Hin : In existing (filter
                  (fun r => Z.eqb (wi_userId (row_data r)) (wi_userId data) &&
                            String.eqb (wi_date (row_data r)) (wi_date data))
                  (rows (waterIntake db)))) by (rewrite E; now left).
        apply filter_In in Hin as [_ Hkey]. apply waterKey_eq in Hkey as [Hu Hd].
        simpl. rewrite Hu, Hd. now destruct data.
      + intros x. now destruct (Z.eqb (row_id x) (row_id existing)). }
  destruct Hrec as (r & Hr & Hd). exists r.
  rewrite getWaterIntake_run, Hr. repeat split; assumption.
Qed.

Lemma createOrUpdateWaterIntake_then_get_witness :
  exists r,
    recordsFor 1 "2024-05-01"
      (snd (run (createOrUpdateWaterIntake
                   (mkInsertWaterIntake 1 "2024-05-01" 900 2500)) sampleDb)) = [r] /\
    row_data r = mkInsertWaterIntake 1 "2024-05-01" 900 2500 /\
    fst (run (getWaterIntake 1 "2024-05-01")
           (snd (run (createOrUpdateWaterIntake
                        (mkInsertWaterIntake 1 "2024-05-01" 900 2500)) sampleDb)))
    = Some r.
Proof.
  apply (createOrUpdateWaterIntake_then_get
           (mkInsertWaterIntake 1 "2024-05-01" 900 2500) sampleDb).
  apply Nat.le_refl.
Defined.

Lemma filter_map_frame {A} (p : A -> bool) (f : A -> A) (l : list A) :
  (forall x, In x l -> p x = true -> f x = x) ->
  (forall x, p (f x) = p x) ->
  filter p (map f l) = filter p l.
Proof.
  intros Hfix Hp. induction l as [|x l IH]; simpl; [reflexivity|].
  rewrite Hp. destruct (p x) eqn:E.
  - rewrite (Hfix x (or_introl eq_refl) E). f_equal. apply IH.
    intros y Hy. apply Hfix. now right.
  - apply IH. intros y Hy. apply Hfix. now right.
Qed.

(** On a table with distinct ids, an upsert run alone leaves the records
    of every other user or day exactly as they were. *)
Theorem createOrUpdateWaterIntake_frame (data : InsertWaterIntake)
    (userId : Z) (date : string) (db : Db) :
  wfTable (waterIntake db) ->
  userId <> wi_userId data \/ date <> wi_date data ->
  recordsFor userId date (snd (run (createOrUpdateWaterIntake data) db))
  = recordsFor userId date db.
Proof.
  intros [Hnd _] Hother. unfold recordsFor at 1. unfold selectWhere.
  rewrite createOrUpdateWaterIntake_run. unfold recordsFor, selectWhere.
  assert (Hkey : forall r,
             Z.eqb (wi_userId (row_data r)) (wi_userId data) &&
             String.eqb (wi_date (row_data r)) (wi_date data) = true ->
             Z.eqb (wi_userId (row_data r)) userId &&
             String.eqb (wi_date (row_data r)) date = false).
  { intros r Hr. apply waterKey_eq in Hr as [Hu Hd].
    apply andb_false_iff. destruct Hother as [H|H].
    - left. apply Z.eqb_neq. congruence.
    - right. apply String.eqb_neq. congruence. }
  destruct (filter _ (rows (waterIntake db))) as [|existing rest] eqn:E;
    cbn [hd_error insertValues updateWhere snd rows keyed].
  - rewrite filter_app.
    assert (Hnew : Z.eqb (wi_userId data) userId && String.eqb (wi_date data) date
                   = false).
    { apply (Hkey (mkRow (nextId (waterIntake db)) data)).
      simpl. now rewrite Z.eqb_refl, String.eqb_refl. }
    simpl. rewrite Hnew. apply app_nil_r.
  - assert (Hin : In existing (filter
              (fun r => Z.eqb (wi_userId (row_data r)) (wi_userId data) &&
                        String.eqb (wi_date (row_data r)) (wi_date data))
              (rows (waterIntake db)))) by (rewrite E; now left).
    apply filter_In in Hin as [Hin Hex].
    apply filter_map_frame.
    + intros x Hx Hpx. destruct (Z.eqb (row_id x) (row_id existing)) eqn:Hid;
        [|reflexivity].
      apply Z.eqb_eq in Hid.
      rewrite (wf_same_id _ x existing Hnd Hx Hin Hid) in Hpx.
      rewrite (Hkey existing Hex) in Hpx. discriminate Hpx.
    + intros x. now destruct (Z.eqb (row_id x) (row_id existing)).
Qed.

Lemma createOrUpdateWaterIntake_frame_witness :
  recordsFor 1 "2024-05-01" (snd (run (createOrUpdateWaterIntake glass) sampleDb))
  = [mkRow 1 (mkInsertWaterIntake 1 "2024-05-01" 500 2000)].
Proof.
  rewrite (createOrUpdateWaterIntake_frame glass 1 "2024-05-01" sampleDb).
  - reflexivity.
  - apply sampleDb_wf.
  - left. discriminate.
Defined.

Lemma createOrUpdateWaterIntake_sequential_witness :
  length (recordsFor 7 "2024-05-02"
            (snd (interleave [] (createOrUpdateWaterIntake glass)
                    (createOrUpdateWaterIntake bottle) sampleDb))) = 1%nat.
Proof.
  apply (createOrUpdateWaterIntake_sequential glass bottle sampleDb);
    reflexivity.
Defined.

(** A [PATCH] of the record with a given id, when that record is the one
    read for its user and day, answers 200 with the record under the same
    id, user and day; the amount is the supplied one when it is supplied
    and not 0, and the stored one when it is missing or 0, and likewise
    the goal.  When no record has the id the answer is 404 and the water
    intake table is left as it was. *)
Theorem patchWaterIntake_partial (id : Z) (body : PatchBody) (db : Db) :
  (forall existing rest,
      selectWhere (fun r => Z.eqb (row_id r) id) (waterIntake db) = existing :: rest ->
      hd_error (recordsFor (wi_userId (row_data existing))
                  (wi_date (row_data existing)) db) = Some existing ->
      exists amount goal,
        fst (run (patchWaterIntake id body) db) =
          mkResponse 200 (JWaterIntake (Some (mkRow id
            (mkInsertWaterIntake (wi_userId (row_data existing))
               (wi_date (row_data existing)) amount goal)))) /\
        (forall x, pb_amount body = Some x -> ~ (x == 0)%Q -> amount = x) /\
        (forall x, pb_amount body = Some x -> (x == 0)%Q ->
                   amount = wi_amount (row_data existing)) /\
        (pb_amount body = None -> amount = wi_amount (row_data existing)) /\
        (forall x, pb_goal body = Some x -> ~ (x == 0)%Q -> goal = x) /\
        (forall x, pb_goal body = Some x -> (x == 0)%Q ->
                   goal = wi_goal (row_data existing)) /\
        (pb_goal body = None -> goal = wi_goal (row_data existing))) /\
  (selectWhere (fun r => Z.eqb (row_id r) id) (waterIntake db) = [] ->
   fst (run (patchWaterIntake id body) db) =
     mkResponse 404 (JMessage "Water intake record not found") /\
   waterIntake (snd (run (patchWaterIntake id body) db)) = waterIntake db).
Proof.
  split.
  - intros existing rest Hid Hkey.
    exists (Js.or_num (pb_amount body) (wi_amount (row_data existing))),
           (Js.or_num (pb_goal body) (wi_goal (row_data existing))).
    split.
    + assert (Hex : row_id existing = id).
      { assert (H : In existing (selectWhere (fun r => Z.eqb (row_id r) id)
                                   (waterIntake db))) by (rewrite Hid; now left).
        apply filter_In in H as [_ H]. now apply Z.eqb_eq in H. }
      unfold patchWaterIntake, createOrUpdateWaterIntake, getWaterIntake.
      cbn [bind onWaterIntake await reading run fst snd waterIntake].
      rewrite Hid.
      cbn [bind onWaterIntake await reading run fst snd waterIntake
           wi_userId wi_date wi_amount wi_goal].
      destruct (hd_error (selectWhere _ (waterIntake db))) as [e|] eqn:E;
        pose proof (eq_trans (eq_sym E) Hkey) as He; [|discriminate He].
      injection He as ->.
      cbn [bind onWaterIntake await reading run fst snd waterIntake updateWhere
           wi_userId wi_date wi_amount wi_goal].
      rewrite Hex. unfold selectWhere in Hid. rewrite Hid.
      cbn [map hd_error]. rewrite <- Hex at 1. rewrite Z.eqb_refl.
      cbn [row_id row_data]. now rewrite Hex.
    + repeat split; intros; try (rewrite H);
        try (now apply or_num_nonzero); try (now apply or_num_zero);
        reflexivity.
  - intros Hnone. unfold patchWaterIntake.
    cbn [bind onWaterIntake await reading run fst snd waterIntake].
    rewrite Hnone. split; reflexivity.
Qed.

Lemma patchWaterIntake_partial_witness :
  exists amount goal,
    fst (run (patchWaterIntake 1 {| pb_amount := Some 750%Q; pb_goal := None |})
           sampleDb) =
      mkResponse 200 (JWaterIntake (Some (mkRow 1
        (mkInsertWaterIntake 1 "2024-05-01" amount goal)))) /\
    amount = 750%Q /\ goal = 2000%Q.
Proof.
  destruct (proj1 (patchWaterIntake_partial 1
                     {| pb_amount := Some 750%Q; pb_goal := None |} sampleDb)
              (mkRow 1 (mkInsertWaterIntake 1 "2024-05-01" 500 2000)) []
              eq_refl eq_refl)
    as (amount & goal & Hres & Hamount & _ & _ & _ & _ & Hgoal).
  exists amount, goal. split; [exact Hres|]. split.
  - apply (Hamount 750%Q eq_refl). discriminate.
  - apply Hgoal. reflexivity.
Defined.

(** Reading a day's water intake stores nothing.  A request without a user
    or without a day, or with an empty day, is answered 400.  Otherwise,
    when the user has no record for the day the answer is the default of
    amount 0 and goal 2000, and the next read finds no record either; when
    the user has one record for the day the answer is that record. *)
Theorem getWaterIntakeRoute_default_not_stored
    (userId : option Z) (date : option string) (db : Db) :
  snd (run (getWaterIntakeRoute userId date) db) = db /\
  (userId = None \/ date = None \/ date = Some EmptyString ->
   fst (run (getWaterIntakeRoute userId date) db)
     = mkResponse 400 (JMessage "userId and date query parameters are required")) /\
  (forall u d, userId = Some u -> date = Some d -> d <> EmptyString ->
     (recordsFor u d db = [] ->
      fst (run (getWaterIntakeRoute userId date) db)
        = mkResponse 200 (JDefaultWaterIntake u d 0 2000) /\
      fst (run (getWaterIntake u d)
             (snd (run (getWaterIntakeRoute userId date) db))) = None) /\
     (forall r, recordsFor u d db = [r] ->
      fst (run (getWaterIntakeRoute userId date) db)
        = mkResponse 200 (JWaterIntake (Some r)))).
Proof.
  assert (Hdb : snd (run (getWaterIntakeRoute userId date) db) = db).
  { unfold getWaterIntakeRoute, getWaterIntake.
    destruct userId as [u|], date as [d|]; try reflexivity.
    destruct (Js.truthy_str d); [|reflexivity].
    cbn [bind onWaterIntake await reading run fst snd].
    destruct (hd_error _); now destruct db. }
  split; [exact Hdb|]. split.
  - intros [-> | [-> | ->]]; unfold getWaterIntakeRoute;
      [reflexivity|destruct userId; reflexivity|destruct userId; reflexivity].
  - intros u d -> -> Hd.
    assert (Ht : Js.truthy_str d = true).
    { destruct d; [contradiction|reflexivity]. }
    split.
    + intros Hnone. rewrite Hdb. unfold getWaterIntakeRoute, getWaterIntake.
      rewrite Ht. cbn [bind onWaterIntake await reading run fst snd].
      unfold recordsFor in Hnone. rewrite Hnone. split; reflexivity.
    + intros r Hsome. unfold getWaterIntakeRoute, getWaterIntake.
      rewrite Ht. cbn [bind onWaterIntake await reading run fst snd].
      unfold recordsFor in Hsome. now rewrite Hsome.
Qed.

Lemma getWaterIntakeRoute_default_not_stored_witness :
  fst (run (getWaterIntakeRoute (Some 7%Z) (Some "2024-05-02")) sampleDb)
    = mkResponse 200 (JDefaultWaterIntake 7 "2024-05-02" 0 2000) /\
  fst (run (getWaterIntakeRoute (Some 7%Z) (Some EmptyString)) sampleDb)
    = mkResponse 400 (JMessage "userId and date query parameters are required").
Proof.
  split.
  - apply (proj2 (proj2 (getWaterIntakeRoute_default_not_stored
                           (Some 7%Z) (Some "2024-05-02") sampleDb))
             7%Z "2024-05-02" eq_refl eq_refl).
    + discriminate.
    + reflexivity.
  - apply (proj1 (proj2 (getWaterIntakeRoute_default_not_stored
                           (Some 7%Z) (Some EmptyString) sampleDb))).
    right. right. reflexivity.
Defined.

End StorageProperties.

(** * Properties of the food diary *)

Section DiaryProperties.
Import Storage Diary.

(** ** Food items *)

Lemma getFoodItems_run (userId : Z) (date : string) (db : DiaryDb) :
  fst (run (getFoodItems userId date) db) =
  filter (fun r => eqCol (fo_userId (row_data r)) userId &&
                   String.eqb (fo_date (row_data r)) date)
    (rows (foodItems db)).
Proof. reflexivity. Qed.

Lemma getFoodItemsByMealType_run (userId : Z) (date mealType : string)
    (db : DiaryDb) :
  fst (run (getFoodItemsByMealType userId date mealType) db) =
  filter (fun r => eqCol (fo_userId (row_data r)) userId &&
                   String.eqb (fo_date (row_data r)) date &&
                   String.eqb (fo_mealType (row_data r)) mealType)
    (rows (foodItems db)).
Proof. reflexivity. Qed.

Lemma filter_andb {A} (p q : A -> bool) (l : list A) :
  filter (fun x => p x && q x) l = filter q (filter p l).
Proof.
  induction l as [|x l IH]; simpl; [reflexivity|].
  destruct (p x); simpl; [destruct (q x)|]; now rewrite IH.
Qed.

(** The items of a meal are the items of the day that carry the meal type,
    in the same order. *)
Theorem getFoodItemsByMealType_refines (userId : Z) (date mealType : string)
    (db : DiaryDb) :
  fst (run (getFoodItemsByMealType userId date mealType) db) =
  filter (fun r => String.eqb (fo_mealType (row_data r)) mealType)
    (fst (run (getFoodItems userId date) db)).
Proof.
  rewrite getFoodItemsByMealType_run, getFoodItems_run.
  apply (filter_andb
           (fun r => eqCol (fo_userId (row_data r)) userId &&
                     String.eqb (fo_date (row_data r)) date)).
Qed.

(** An item created for a user other than 0 is stored under the next id
    with that user.  The items listed for its user and day, and those
    listed for its meal, are then the items listed before and the created
    one, in some order; the items listed for another user or another day
    are what they were. *)
Theorem createFoodItem_then_listed (item : InsertFoodItem) (userId : Z)
    (db : DiaryDb) :
  fo_userId item = Some userId -> userId <> 0%Z ->
  let created := mkRow (nextId (foodItems db)) (foodItemValues item) in
  let db' := snd (run (createFoodItem item) db) in
  fst (run (createFoodItem item) db) = Some created /\
  fo_userId (row_data created) = Some userId /\
  Permutation (fst (run (getFoodItems userId (fo_date item)) db'))
    (created :: fst (run (getFoodItems userId (fo_date item)) db)) /\
  Permutation
    (fst (run (getFoodItemsByMealType userId (fo_date item) (fo_mealType item)) db'))
    (created ::
     fst (run (getFoodItemsByMealType userId (fo_date item) (fo_mealType item)) db)) /\
  (forall otherUser otherDate,
      otherUser <> userId \/ otherDate <> fo_date item ->
      fst (run (getFoodItems otherUser otherDate) db') =
      fst (run (getFoodItems otherUser otherDate) db)).
Proof.
  intros Hu H0 created db'.
  assert (Hid : fo_userId (row_data created) = Some userId).
  { subst created. simpl. rewrite Hu. simpl.
    destruct (Z.eqb userId 0) eqn:E; [|reflexivity].
    apply Z.eqb_eq in E. contradiction. }
  assert (Hrows : rows (foodItems db') = rows (foodItems db) ++ [created])
    by reflexivity.
  split; [reflexivity|]. split; [exact Hid|]. split; [|split].
  - rewrite !getFoodItems_run, Hrows, filter_app.
    cbn [filter]. rewrite Hid. simpl.
    rewrite Z.eqb_refl, String.eqb_refl. simpl.
    symmetry. apply Permutation_cons_append.
  - rewrite !getFoodItemsByMealType_run, Hrows, filter_app.
    cbn [filter]. rewrite Hid. simpl.
    rewrite Z.eqb_refl, !String.eqb_refl. simpl.
    symmetry. apply Permutation_cons_append.
  - intros otherUser otherDate Hother.
    rewrite !getFoodItems_run, Hrows, filter_app.
    cbn [filter]. rewrite Hid. simpl.
    assert (Hno : Z.eqb userId otherUser && String.eqb (fo_date item) otherDate
                  = false).
    { apply andb_false_iff. destruct Hother as [H|H].
      - left. apply Z.eqb_neq. congruence.
      - right. apply String.eqb_neq. congruence. }
    rewrite Hno. apply app_nil_r.
Qed.

Lemma createFoodItem_then_listed_witness :
  Permutation
    (fst (run (getFoodItems 1 "2024-05-01")
            (snd (run (createFoodItem thali) sampleDiary))))
    [mkRow 2 thali; mkRow 1 porridge].
Proof.
  assert (H1 : 1%Z <> 0%Z) by discriminate.
  exact (proj1 (proj2 (proj2
           (createFoodItem_then_listed thali 1 sampleDiary eq_refl H1)))).
Defined.

(** An item created without a user id, or with the user id 0, is stored
    with no user: it is listed for no user on any day, the user 0
    included. *)
Theorem createFoodItem_without_user (item : InsertFoodItem) (db : DiaryDb) :
  fo_userId item = None \/ fo_userId item = Some 0%Z ->
  let db' := snd (run (createFoodItem item) db) in
  (exists created,
      fst (run (createFoodItem item) db) = Some created /\
      fo_userId (row_data created) = None /\
      In created (rows (foodItems db'))) /\
  (forall userId date,
      fst (run (getFoodItems userId date) db') =
      fst (run (getFoodItems userId date) db)).
Proof.
  intros Hu db'.
  assert (Hnull : orNullNum (fo_userId item) = None).
  { destruct Hu as [-> | ->]; reflexivity. }
  assert (Hrows : rows (foodItems db') =
                  rows (foodItems db)
                  ++ [mkRow (nextId (foodItems db)) (foodItemValues item)])
    by reflexivity.
  split.
  - eexists. split; [reflexivity|]. split; [exact Hnull|].
    rewrite Hrows. apply in_or_app. right. now left.
  - intros userId date. rewrite !getFoodItems_run, Hrows, filter_app.
    cbn [filter row_data foodItemValues fo_userId]. rewrite Hnull. simpl.
    apply app_nil_r.
Qed.

Lemma createFoodItem_without_user_witness :
  fst (run (getFoodItems 0 "2024-05-01")
         (snd (run (createFoodItem anonymousSnack) sampleDiary))) = [].
Proof.
  exact (proj2 (createFoodItem_without_user anonymousSnack sampleDiary
                  (or_intror eq_refl)) 0%Z "2024-05-01").
Defined.

(** Deleting a food item succeeds, with the answer 204, exactly when an
    item with that id is stored, and is answered 404 otherwise.  Afterwards
    no item has that id, and the items with other ids are stored as before,
    in the same order. *)
Theorem deleteFoodItem_effect (id : Z) (db : DiaryDb) :
  let success := fst (run (deleteFoodItem id) db) in
  let db' := snd (run (deleteFoodItem id) db) in
  (success = true <-> exists r, In r (rows (foodItems db)) /\ row_id r = id) /\
  fst (run (deleteFoodItemRoute id) db) =
    (if success then mkResponse 204 JNothing
     else mkResponse 404 (JMessage "Food item not found")) /\
  rows (foodItems db') =
    filter (fun r => negb (Z.eqb (row_id r) id)) (rows (foodItems db)) /\
  (forall r, In r (rows (foodItems db')) -> row_id r <> id) /\
  userGoals db' = userGoals db.
Proof.
  intros success db'.
  assert (Hrows : rows (foodItems db') =
                  filter (fun r => negb (Z.eqb (row_id r) id)) (rows (foodItems db)))
    by reflexivity.
  split; [|split; [|split; [exact Hrows|split; [|reflexivity]]]].
  - subst success. unfold deleteFoodItem.
    cbn [bind onFoodItems await run fst snd deleteWhere].
    rewrite exists_filter_nonempty. split; intros (r & Hin & H); exists r;
      (split; [exact Hin|]); now apply Z.eqb_eq.
  - subst success. unfold deleteFoodItemRoute, deleteFoodItem.
    cbn [bind onFoodItems await run fst snd deleteWhere].
    now destruct (0 <? _)%nat.
  - intros r Hr. rewrite Hrows in Hr. apply filter_In in Hr as [_ Hr].
    apply negb_true_iff in Hr. now apply Z.eqb_neq.
Qed.

(** ** User goals *)

Lemma getUserGoals_run (userId : Z) (db : DiaryDb) :
  fst (run (getUserGoals userId) db) =
  hd_error (filter (fun r => eqCol (ug_userId (row_data r)) userId)
              (rows (userGoals db))).
Proof. reflexivity. Qed.

Lemma userGoalValues_default (userId : Z) :
  userId <> 0%Z -> userGoalValues (defaultGoals userId) = defaultGoals userId.
Proof.
  intros H. unfold userGoalValues, defaultGoals. simpl.
  destruct (Z.eqb userId 0) eqn:E; [|reflexivity].
  apply Z.eqb_eq in E. contradiction.
Qed.

(** The first read of the goals of a user other than 0 who has none stores
    the defaults 2000, 120, 250 and 65 under the next id and answers with
    them; the next read answers with the same record and stores nothing. *)
Theorem getUserGoalsRoute_creates_once (userId : Z) (db : DiaryDb) :
  userId <> 0%Z ->
  fst (run (getUserGoals userId) db) = None ->
  let created := mkRow (nextId (userGoals db)) (defaultGoals userId) in
  let db1 := snd (run (getUserGoalsRoute userId) db) in
  fst (run (getUserGoalsRoute userId) db) = mkResponse 200 (JUserGoal (Some created)) /\
  rows (userGoals db1) = rows (userGoals db) ++ [created] /\
  run (getUserGoalsRoute userId) db1 = (mkResponse 200 (JUserGoal (Some created)), db1).
Proof.
  intros H0 Hnone created db1. rewrite getUserGoals_run in Hnone.
  assert (Hfilter : filter (fun r => eqCol (ug_userId (row_data r)) userId)
                      (rows (userGoals db)) = []).
  { destruct (filter _ _); [reflexivity|discriminate Hnone]. }
  assert (Hrun : run (getUserGoalsRoute userId) db =
                 (mkResponse 200 (JUserGoal (Some created)),
                  mkDiaryDb (foodItems db)
                    (mkTable (rows (userGoals db) ++ [created])
                       (nextId (userGoals db) + 1)))).
  { unfold getUserGoalsRoute, getUserGoals, createUserGoals.
    cbn [bind onUserGoals await reading run fst snd]. unfold selectWhere.
    rewrite Hfilter.
    cbn [hd_error bind onUserGoals await run fst snd insertValues keyed
         foodItems userGoals rows nextId length].
    rewrite (userGoalValues_default _ H0). reflexivity. }
  subst db1. rewrite Hrun. cbn [fst snd userGoals rows].
  split; [reflexivity|]. split; [reflexivity|].
  unfold getUserGoalsRoute, getUserGoals.
  cbn [bind onUserGoals await reading run fst snd userGoals
       foodItems rows nextId]. unfold selectWhere. cbn [rows].
  rewrite filter_app, Hfilter. cbn [filter app row_data].
  unfold created at 1. cbn [row_data defaultGoals ug_userId eqCol].
  rewrite Z.eqb_refl. reflexivity.
Qed.

Lemma getUserGoalsRoute_creates_once_witness :
  fst (run (getUserGoalsRoute 2) sampleDiary)
  = mkResponse 200 (JUserGoal (Some (mkRow 2 (defaultGoals 2)))).
Proof.
  assert (H2 : 2%Z <> 0%Z) by discriminate.
  exact (proj1 (getUserGoalsRoute_creates_once 2 sampleDiary H2 eq_refl)).
Defined.

(** No stored goals carry the user id 0: the creation stores that id as
    no user.  So every read of the goals of user 0 stores one more record
    of defaults, with no user, and answers with it. *)
Theorem getUserGoalsRoute_user_zero (db : DiaryDb) :
  Forall (fun r => ug_userId (row_data r) <> Some 0%Z) (rows (userGoals db)) ->
  let created :=
    mkRow (nextId (userGoals db)) (mkInsertUserGoal None 2000 120 250 65) in
  let db1 := snd (run (getUserGoalsRoute 0) db) in
  fst (run (getUserGoalsRoute 0) db) = mkResponse 200 (JUserGoal (Some created)) /\
  rows (userGoals db1) = rows (userGoals db) ++ [created] /\
  Forall (fun r => ug_userId (row_data r) <> Some 0%Z) (rows (userGoals db1)).
Proof.
  intros Hinv created db1.
  assert (Hfilter : filter (fun r => eqCol (ug_userId (row_data r)) 0)
                      (rows (userGoals db)) = []).
  { apply filter_false. intros r Hr. rewrite Forall_forall in Hinv.
    specialize (Hinv r Hr). destruct (ug_userId (row_data r)) as [u|];
      [|reflexivity].
    simpl. apply Z.eqb_neq. congruence. }
  assert (Hrun : run (getUserGoalsRoute 0) db =
                 (mkResponse 200 (JUserGoal (Some created)),
                  mkDiaryDb (foodItems db)
                    (mkTable (rows (userGoals db) ++ [created])
                       (nextId (userGoals db) + 1)))).
  { unfold getUserGoalsRoute, getUserGoals, createUserGoals.
    cbn [bind onUserGoals await reading run fst snd]. unfold selectWhere.
    rewrite Hfilter. reflexivity. }
  subst db1. rewrite Hrun. cbn [fst snd userGoals rows].
  split; [reflexivity|]. split; [reflexivity|].
  apply Forall_app. split; [exact Hinv|].
  constructor; [discriminate|constructor].
Qed.

Lemma getUserGoalsRoute_user_zero_witness :
  length (rows (userGoals
    (snd (run (getUserGoalsRoute 0) (snd (run (getUserGoalsRoute 0) sampleDiary))))))
  = 3%nat.
Proof.
  assert (H0 : Forall (fun r => ug_userId (row_data r) <> Some 0%Z)
                 (rows (userGoals sampleDiary))).
  { constructor; [discriminate|constructor]. }
  destruct (getUserGoalsRoute_user_zero sampleDiary H0) as (_ & Hrows1 & Hinv1).
  destruct (getUserGoalsRoute_user_zero _ Hinv1) as (_ & Hrows2 & _).
  rewrite Hrows2, Hrows1. reflexivity.
Defined.

Lemma wf_filter_id {A} (l : list (Row A)) (e : Row A) :
  NoDup (map row_id l) -> In e l ->
  filter (fun r => Z.eqb (row_id r) (row_id e)) l = [e].
Proof.
  induction l as [|x l IH]; simpl; intros Hnd Hin; [destruct Hin|].
  inversion Hnd as [|y ys Hnotin Hnd']; subst.
  destruct Hin as [->|Hin].
  - rewrite Z.eqb_refl. f_equal. apply filter_false.
    intros r Hr. apply Z.eqb_neq. intros Heq. apply Hnotin.
    rewrite <- Heq. now apply in_map.
  - destruct (Z.eqb (row_id x) (row_id e)) eqn:E; [|now apply IH].
    apply Z.eqb_eq in E. exfalso. apply Hnotin. rewrite E. now apply in_map.
Qed.

(** The partial update of the goals of a user, with updates of the declared
    type, on a table with distinct ids.  When the user has one goals record
    and the updates supply a value, the record keeps its id, takes every
    supplied value (0 included) and keeps the other goal values; it is then
    the one goals record of the user, and what the next read returns.  When
    the user has goals and the updates supply no value the call throws and
    nothing is stored.  When the user has no goals the call returns nothing
    and nothing is stored. *)
Theorem updateUserGoals_partial (userId : Z) (updates : UserGoalUpdates)
    (db : DiaryDb) :
  wfTable (userGoals db) ->
  let db' := snd (run (updateUserGoals userId updates) db) in
  (forall existing,
      goalsOf userId db = [existing] ->
      noValues updates = false ->
      let updated := mkRow (row_id existing)
                       (setUserGoal updates (row_data existing)) in
      fst (run (updateUserGoals userId updates) db) = Returned (Some updated) /\
      goalsOf userId db' = [updated] /\
      fst (run (getUserGoals userId) db') = Some updated /\
      (forall x, up_calorieGoal updates = Some x ->
                 ug_calorieGoal (row_data updated) = x) /\
      (forall x, up_proteinGoal updates = Some x ->
                 ug_proteinGoal (row_data updated) = x) /\
      (forall x, up_carbsGoal updates = Some x ->
                 ug_carbsGoal (row_data updated) = x) /\
      (forall x, up_fatGoal updates = Some x ->
                 ug_fatGoal (row_data updated) = x) /\
      (up_calorieGoal updates = None ->
       ug_calorieGoal (row_data updated) = ug_calorieGoal (row_data existing)) /\
      (up_proteinGoal updates = None ->
       ug_proteinGoal (row_data updated) = ug_proteinGoal (row_data existing)) /\
      (up_carbsGoal updates = None ->
       ug_carbsGoal (row_data updated) = ug_carbsGoal (row_data existing)) /\
      (up_fatGoal updates = None ->
       ug_fatGoal (row_data updated) = ug_fatGoal (row_data existing))) /\
  (goalsOf userId db <> [] ->
      noValues updates = true ->
      fst (run (updateUserGoals userId updates) db) = Threw /\
      userGoals db' = userGoals db) /\
  (goalsOf userId db = [] ->
      fst (run (updateUserGoals userId updates) db) = Returned None /\
      userGoals db' = userGoals db).
Proof.
  intros [Hnd _] db'. subst db'. unfold goalsOf, updateUserGoals, getUserGoals.
  split; [|split].
  - intros existing E Hvalues.
    assert (Hin : In existing (rows (userGoals db))).
    { assert (H : In existing (selectWhere
                     (fun r => eqCol (ug_userId (row_data r)) userId)
                     (userGoals db))) by (rewrite E; now left).
      now apply filter_In in H. }
    cbn [bind onUserGoals await reading run fst snd].
    rewrite E. cbn [hd_error]. rewrite Hvalues.
    cbn [bind onUserGoals await reading run fst snd updateWhere
         userGoals foodItems rows].
    unfold selectWhere in *. cbn [rows].
    rewrite (wf_filter_id _ _ Hnd Hin). cbn [map hd_error].
    rewrite Z.eqb_refl.
    assert (Hafter : filter (fun r => eqCol (ug_userId (row_data r)) userId)
                       (map (fun r => if Z.eqb (row_id r) (row_id existing)
                                      then mkRow (row_id r)
                                             (setUserGoal updates (row_data r))
                                      else r)
                          (rows (userGoals db)))
                     = [mkRow (row_id existing)
                          (setUserGoal updates (row_data existing))]).
    { rewrite filter_map_same.
      - rewrite E. cbn [map]. now rewrite Z.eqb_refl.
      - intros x. now destruct (Z.eqb (row_id x) (row_id existing)). }
    rewrite Hafter. cbn [hd_error row_data setUserGoal ug_calorieGoal
                         ug_proteinGoal ug_carbsGoal ug_fatGoal].
    repeat split; intros; rewrite H; reflexivity.
  - intros Hsome Hvalues.
    cbn [bind onUserGoals await reading run fst snd].
    destruct (selectWhere _ (userGoals db)) as [|e rest];
      [contradiction|].
    cbn [hd_error]. rewrite Hvalues. split; reflexivity.
  - intros Hnone.
    cbn [bind onUserGoals await reading run fst snd].
    rewrite Hnone. split; reflexivity.
Qed.

Lemma sampleDiary_goals_wf : wfTable (userGoals sampleDiary).
Proof.
  split; simpl.
  - repeat constructor. intros [].
  - repeat constructor.
Qed.

Lemma updateUserGoals_partial_witness :
  fst (run (updateUserGoals 1 fewerCalories) sampleDiary)
    = Returned (Some (mkRow 1 (mkInsertUserGoal (Some 1%Z) 1600 100 220 60))) /\
  fst (run (updateUserGoals 1 emptyUpdates) sampleDiary) = Threw /\
  fst (run (updateUserGoals 9 fewerCalories) sampleDiary) = Returned None.
Proof.
  split; [|split].
  - exact (proj1
      (proj1 (updateUserGoals_partial 1 fewerCalories sampleDiary
                sampleDiary_goals_wf)
         (mkRow 1 (mkInsertUserGoal (Some 1%Z) 1800 100 220 60))
         eq_refl eq_refl)).
  - assert (Hsome : goalsOf 1 sampleDiary <> []) by discriminate.
    exact (proj1
      (proj1 (proj2 (updateUserGoals_partial 1 emptyUpdates sampleDiary
                       sampleDiary_goals_wf))
         Hsome eq_refl)).
  - exact (proj1
      (proj2 (proj2 (updateUserGoals_partial 9 fewerCalories sampleDiary
                       sampleDiary_goals_wf))
         eq_refl)).
Defined.

End DiaryProperties.
